(** * unbound: a rule-based gateway in front of chat models

    A shallow embedding of [main.py]: the three tables of the store, the
    request handlers that read and extend them, and the properties of the
    routing decisions the handlers take.

    Conventions of the embedding.
    - A Python [str] is a Rocq [string], the characters of the [str] in
      UTF-8.  [str.lower] follows the Unicode tables of Python: like
      [re.search] it belongs to the library and is given as a type class.
    - A Python [dict] with string keys and values is a [gmap string string];
      the set built by a set comprehension is a [gset string].
    - A table is the list of its rows in rowid order, which is the order
      SQLite returns from a query without ORDER BY.  A new row is given one
      more than the largest rowid and so comes last: this is SQLite's rule
      for a table whose rowids are positive and below the largest rowid,
      2^63 - 1 ([rowids_regular]), and the rule the inserts follow here.
    - A handler is a function from the state of the world (the database and
      the upload directory) to an outcome and the state it leaves: the
      outcome is the value returned or the exception raised.
    - The copy of an upload to the disk is the business of the operating
      system: the path is [uploads/] followed by the file name as it came,
      so the copy can fail and can land on any file, the database included.
      It is given as a type class too, with the state it leaves.
    - [re.search] belongs to Python's library, not to this program: the
      handlers are defined over any regular-expression engine, given as a
      type class. *)

From stdpp Require Import base strings gmap list.
From Stdlib Require Import ZArith Ascii String Sorted.

Local Open Scope string_scope.
Local Open Scope Z_scope.
Local Open Scope list_scope.

(** ** Strings *)

(** [c.lower()] for one character. *)
Definition ascii_lower (c : ascii) : ascii :=
  let n := Z.of_N (N_of_ascii c) in
  if (65 <=? n) && (n <=? 90) then ascii_of_N (Z.to_N (n + 32)) else c.

(** The letters A to Z of [s] in lower case, the other characters as they
    are: what [s.lower()] is for a string of ASCII characters. *)
Fixpoint lower (s : string) : string :=
  match s with
  | EmptyString => EmptyString
  | String c s' => String (ascii_lower c) (lower s')
  end.

(** [s.split(sep)] for a separator of one character: the pieces between the
    occurrences of [sep], in order.  The result is never empty. *)
Fixpoint split (s : string) (sep : ascii) : list string :=
  match s with
  | EmptyString => [EmptyString]
  | String c s' =>
      if Ascii.eqb c sep then EmptyString :: split s' sep
      else match split s' sep with
           | piece :: pieces => String c piece :: pieces
           | [] => [String c EmptyString]
           end
  end.

(** [sep in s] *)
Fixpoint contains (sep : ascii) (s : string) : bool :=
  match s with
  | EmptyString => false
  | String c s' => Ascii.eqb c sep || contains sep s'
  end.

(** [s] has none of the letters A to Z. *)
Definition no_ascii_capital (s : string) : Prop := lower s = s.

(** ** Python's [str], as far as the handlers use it *)

Module str.
(** [lower s] is [s.lower()], by the Unicode tables.  Two facts of these
    tables are used: no character has one of the letters A to Z in its
    lower case, and "." is the lower case of "." and of nothing else. *)
Class unicode : Type :=
  { lower : string -> string;
    lower_no_ascii_capital : forall s, no_ascii_capital (lower s);
    lower_dot : forall s, contains "." (lower s) = contains "." s }.
End str.

(** ** Outcomes: a value returned or an exception raised *)

Inductive exn : Type :=
  | re_error         (* re.error: the pattern does not compile *)
  | IntegrityError   (* sqlalchemy.exc.IntegrityError: a constraint fails *)
  | IndexError       (* list index out of range *)
  | OSError.         (* FileNotFoundError, IsADirectoryError, PermissionError *)

Inductive outcome (A : Type) : Type :=
  | Returned (a : A)
  | Raised (e : exn).
Arguments Returned {A} a.
Arguments Raised {A} e.

(** [l[-1]] *)
Definition last_item {A : Type} (l : list A) : outcome A :=
  match last l with
  | Some x => Returned x
  | None => Raised IndexError
  end.

(** ** The store *)

Module Model.
Record t : Type := { id : Z; name : string }.
End Model.

Module RoutingRule.
Record t : Type :=
  { id : Z;
    original_model : string;
    regex_pattern : string;
    redirect_model : string }.
End RoutingRule.

Module FileRoutingRule.
Record t : Type :=
  { id : Z;
    file_type : string;        (* unique=True *)
    redirect_provider : string;
    redirect_model : string }.
End FileRoutingRule.

(** The tables, by [__tablename__]. *)
Record Database : Type :=
  { models : list Model.t;
    routing_rules : list RoutingRule.t;
    file_routing_rules : list FileRoutingRule.t }.

(** The world a handler runs in: the database and the files under
    [uploads/], by file name. *)
Record World : Type :=
  { db : Database;
    uploads : gmap string string }.

(** The rowid SQLite gives a new row of a table with an INTEGER PRIMARY KEY:
    one more than the largest in the table, 1 in an empty table.  This is
    the rule as long as the largest rowid is positive and below [max_rowid]
    (see [rowids_regular]). *)
Definition next_id (ids : list Z) : Z := 1 + foldr Z.max 0 ids.

(** ** Handlers: state and exceptions *)

Definition M (A : Type) : Type := World -> outcome A * World.

Definition ret {A : Type} (a : A) : M A := fun w => (Returned a, w).
Definition bind {A B : Type} (c : M A) (k : A -> M B) : M B :=
  fun w => match c w with
           | (Returned a, w') => k a w'
           | (Raised e, w') => (Raised e, w')
           end.
Definition lift {A : Type} (o : outcome A) : M A := fun w => (o, w).

Notation "'let*' x := c 'in' k" := (bind c (fun x => k))
  (at level 10, x name, c at level 100, k at level 200).
Notation "c ;; k" := (bind c (fun _ => k))
  (at level 100, k at level 200, right associativity).

(** ** The session: queries and inserts *)

(** [db.query(Model).all()] *)
Definition query_models : M (list Model.t) :=
  fun w => (Returned (models (db w)), w).

(** [db.query(RoutingRule).all()] *)
Definition query_routing_rules : M (list RoutingRule.t) :=
  fun w => (Returned (routing_rules (db w)), w).

(** [db.query(FileRoutingRule).all()] *)
Definition query_file_routing_rules : M (list FileRoutingRule.t) :=
  fun w => (Returned (file_routing_rules (db w)), w).

(** [db.query(FileRoutingRule).filter(FileRoutingRule.file_type == ext).first()]:
    the first row whose [file_type] is [ext], compared as SQLite compares
    text, character by character; [None] when there is none. *)
Definition query_file_routing_rule_first (ext : string)
  : M (option FileRoutingRule.t) :=
  fun w =>
    (Returned (List.find (fun r => String.eqb (FileRoutingRule.file_type r) ext)
                         (file_routing_rules (db w))), w).

(** [db.add(Model(name=...)); db.commit()]: [name] is declared unique, a
    second row of the same name is refused and the table is left as it was. *)
Definition insert_model (name : string) : M unit :=
  fun w =>
    let d := db w in
    if existsb (fun m => String.eqb (Model.name m) name) (models d)
    then (Raised IntegrityError, w)
    else
      let row := {| Model.id := next_id (Model.id <$> models d);
                    Model.name := name |} in
      (Returned tt,
       {| db := {| models := models d ++ [row];
                   routing_rules := routing_rules d;
                   file_routing_rules := file_routing_rules d |};
          uploads := uploads w |}).

(** [db.add(RoutingRule(...)); db.commit()]: no column of the table is
    constrained, the row is appended. *)
Definition insert_routing_rule
    (original_model regex_pattern redirect_model : string) : M unit :=
  fun w =>
    let d := db w in
    let row := {| RoutingRule.id := next_id (RoutingRule.id <$> routing_rules d);
                  RoutingRule.original_model := original_model;
                  RoutingRule.regex_pattern := regex_pattern;
                  RoutingRule.redirect_model := redirect_model |} in
    (Returned tt,
     {| db := {| models := models d;
                 routing_rules := routing_rules d ++ [row];
                 file_routing_rules := file_routing_rules d |};
        uploads := uploads w |}).

(** [db.add(FileRoutingRule(...)); db.commit()]: [file_type] is declared
    unique, so the commit of a row whose [file_type] is already stored raises
    and the table is left as it was. *)
Definition insert_file_routing_rule
    (file_type redirect_provider redirect_model : string) : M unit :=
  fun w =>
    let d := db w in
    if existsb (fun r => String.eqb (FileRoutingRule.file_type r) file_type)
               (file_routing_rules d)
    then (Raised IntegrityError, w)
    else
      let row :=
        {| FileRoutingRule.id :=
             next_id (FileRoutingRule.id <$> file_routing_rules d);
           FileRoutingRule.file_type := file_type;
           FileRoutingRule.redirect_provider := redirect_provider;
           FileRoutingRule.redirect_model := redirect_model |} in
      (Returned tt,
       {| db := {| models := models d;
                   routing_rules := routing_rules d;
                   file_routing_rules := file_routing_rules d ++ [row] |};
          uploads := uploads w |}).

(** ** The operating system, as far as the handlers use it *)

Module os.
(** [write filename contents] is
    [with (Path("uploads") / filename).open("wb") as buffer:
       shutil.copyfileobj(file.file, buffer)]:
    the outcome of opening and writing the path and the world it leaves.
    The outcome is [Raised e] when the path cannot be opened for writing (it
    is a directory, or lies in a directory that does not exist).  The file
    name is not checked, so the path may lie outside [uploads/]; it may be
    the file of the database, whose tables are then those of the file
    written.

    Two facts of file systems are used.  [write_again]: writing a path
    twice leaves what writing it the second time alone leaves.
    [write_tables]: whether a write succeeds does not depend on the rows of
    the tables, and the write either leaves the tables alone or replaces
    them by what [contents] holds. *)
Class files : Type :=
  { write : string -> string -> World -> outcome unit * World;
    write_again : forall filename contents1 contents2 w,
      (write filename contents2 (write filename contents1 w).2).2
      = (write filename contents2 w).2;
    write_tables : forall filename contents w1 w2,
      uploads w1 = uploads w2 ->
      (write filename contents w1).1 = (write filename contents w2).1
      /\ ((db (write filename contents w1).2 = db w1
           /\ db (write filename contents w2).2 = db w2)
          \/ db (write filename contents w1).2
             = db (write filename contents w2).2) }.
End os.

(** The copy of the upload to [uploads/filename]. *)
Definition save_upload {D : os.files} (filename contents : string) : M unit :=
  os.write filename contents.

(** ** Start-up *)

Definition default_models : list string :=
  ["openai/gpt-3.5"; "anthropic/claude-v1"; "gemini/gemini-alpha"].

Fixpoint add_missing_models (existing_models : gset string) (names : list string)
  : M unit :=
  match names with
  | [] => ret tt
  | model_name :: names' =>
      (if decide (model_name ∉ existing_models)
       then insert_model model_name else ret tt) ;;
      add_missing_models existing_models names'
  end.

Definition initialize_models : M unit :=
  let* rows := query_models in
  let existing_models : gset string := list_to_set (Model.name <$> rows) in
  add_missing_models existing_models default_models.

(** ** Python's [re], as far as the handlers use it *)

Module re.
(** [search pattern string flags] is [Returned true] when [re.search]
    returns a match object, [Returned false] when it returns [None], and
    [Raised e] when it raises, as it does on a pattern that does not
    compile. *)
Class engine : Type :=
  { search : string -> string -> Z -> outcome bool }.

Definition IGNORECASE : Z := 2.
End re.

(** ** The routes *)

Record RedirectResponse : Type :=
  { url : string; status_code : Z }.

(** An uploaded file: its name and its contents. *)
Module UploadFile.
Record t : Type := { filename : string; file : string }.
End UploadFile.

(** The canned answers of [chat_completions]. *)
Definition responses : gmap string string :=
  {[ "openai/gpt-3.5" :=
       "OpenAI: Processed your prompt with advanced language understanding.";
     "anthropic/claude-v1" :=
       "Anthropic: Your prompt has been interpreted with ethical AI principles.";
     "gemini/gemini-alpha" :=
       "Gemini: Your request has been processed using next-gen AI." ]}.

(** [list_models] *)
Definition list_models : M (list string) :=
  let* rows := query_models in
  ret (Model.name <$> rows).

Section Routes.
Context {E : re.engine}.

(** The loop of [chat_completions] over the rules: the model it leaves in
    [model], or the exception [re.search] raised. *)
Fixpoint chat_completions_loop
    (rules : list RoutingRule.t) (prompt model : string) : outcome string :=
  match rules with
  | [] => Returned model
  | rule :: rules' =>
      match re.search (RoutingRule.regex_pattern rule) prompt re.IGNORECASE with
      | Raised e => Raised e
      | Returned true => Returned (RoutingRule.redirect_model rule)
      | Returned false => chat_completions_loop rules' prompt model
      end
  end.

Definition chat_completions (provider model prompt : string)
  : M (gmap string string) :=
  let* rows := query_models in
  let models : gset string := list_to_set (Model.name <$> rows) in
  if decide (model ∉ models) then
    ret {[ "error" := "Model not supported" ]}
  else
    let* rules := query_routing_rules in
    let* model := lift (chat_completions_loop rules prompt model) in
    ret {[ "provider" := provider;
           "model" := model;
           "response" := default "Response not available." (responses !! model) ]}.
End Routes.

Section UploadRoute.
Context {S : str.unicode} {D : os.files}.

(** [file.filename.split(".")[-1].lower()] *)
Definition file_ext_of (filename : string) : outcome string :=
  match last_item (split filename ".") with
  | Returned piece => Returned (str.lower piece)
  | Raised e => Raised e
  end.

Definition upload_file (file : UploadFile.t) : M (gmap string string) :=
  let filename := UploadFile.filename file in
  let* file_ext := lift (file_ext_of filename) in
  save_upload filename (UploadFile.file file) ;;
  let* rule := query_file_routing_rule_first file_ext in
  match rule with
  | Some rule =>
      ret {[ "filename" := filename;
             "provider" := FileRoutingRule.redirect_provider rule;
             "model" := FileRoutingRule.redirect_model rule;
             "response" :=
               FileRoutingRule.redirect_provider rule
               +:+ ": File processed with AI model "
               +:+ FileRoutingRule.redirect_model rule +:+ "." ]}
  | None =>
      ret {[ "filename" := filename;
             "response" := "File uploaded successfully." ]}
  end.
End UploadRoute.

Definition add_regex_rule (original_model regex_pattern redirect_model : string)
  : M RedirectResponse :=
  insert_routing_rule original_model regex_pattern redirect_model ;;
  ret {| url := "/admin"; status_code := 303 |}.

Definition get_regex_rules : M (list RoutingRule.t) := query_routing_rules.

Definition add_file_routing_rule
    (file_type redirect_provider redirect_model : string) : M RedirectResponse :=
  insert_file_routing_rule file_type redirect_provider redirect_model ;;
  ret {| url := "/admin"; status_code := 303 |}.

Definition get_file_routing_rules : M (list FileRoutingRule.t) :=
  query_file_routing_rules.

(** ** A concrete engine for the examples

    [plain_engine] implements [re.search] for the patterns written with
    ordinary ASCII characters only, where a search is a substring test,
    blind to the case of letters when the flag [re.IGNORECASE] is set.  It
    implements none of the special characters and raises on every pattern
    that has one: this is what Python does on the malformed ones, such as
    a lone opening parenthesis or a leading star, and only on those. *)

Definition special_characters : string := ".^$*+?{}[]\|()".

Fixpoint startswith (s prefix : string) : bool :=
  match prefix, s with
  | EmptyString, _ => true
  | String p prefix', String c s' => Ascii.eqb p c && startswith s' prefix'
  | String _ _, EmptyString => false
  end.

Fixpoint occurs_in (needle s : string) : bool :=
  startswith s needle ||
  match s with
  | EmptyString => false
  | String _ s' => occurs_in needle s'
  end.

Fixpoint has_special (pattern : string) : bool :=
  match pattern with
  | EmptyString => false
  | String c pattern' => contains c special_characters || has_special pattern'
  end.

Definition plain_search (pattern s : string) (flags : Z) : outcome bool :=
  if has_special pattern then Raised re_error
  else if Z.testbit flags 1 then Returned (occurs_in (lower pattern) (lower s))
  else Returned (occurs_in pattern s).

Definition plain_engine : re.engine := {| re.search := plain_search |}.

(** ** A concrete [str] and a concrete disk for the examples

    [plain_str] lowers the letters A to Z and no other character: it is
    [str.lower] on the strings of ASCII characters, which the file names of
    the examples are. *)

Definition plain_str : str.unicode.
Proof.
  refine {| str.lower := lower |}.
  - intros s. unfold no_ascii_capital.
    induction s as [|c s IH]; simpl; [reflexivity|]. rewrite IH. f_equal.
    destruct c as [[] [] [] [] [] [] [] []]; reflexivity.
  - intros s. induction s as [|c s IH]; simpl; [reflexivity|]. rewrite IH.
    f_equal. destruct c as [[] [] [] [] [] [] [] []]; reflexivity.
Defined.

(** [plain_files] is a disk where [uploads/] exists, is empty of
    directories and can be written.  A file name that is a plain name, with
    no "/" and other than "", "." and "..", names a file of [uploads/],
    which is created or overwritten while nothing else changes.  Every other
    name is refused: this is what the system does with "", "." and "..",
    which name directories, and with a name under a directory that does not
    exist, and only with those. *)

Definition plain_name (filename : string) : bool :=
  negb (String.eqb filename "")
  && negb (contains "/" filename)
  && negb (String.eqb filename ".")
  && negb (String.eqb filename "..").

Definition plain_write (filename contents : string) : M unit :=
  fun w =>
    if plain_name filename
    then (Returned tt,
          {| db := db w; uploads := <[filename := contents]> (uploads w) |})
    else (Raised OSError, w).

Definition plain_files : os.files.
Proof.
  refine {| os.write := plain_write |}.
  - intros filename contents1 contents2 w. unfold plain_write.
    destruct (plain_name filename); [|reflexivity].
    cbn [snd db uploads]. rewrite insert_insert_eq. reflexivity.
  - intros filename contents w1 w2 _. unfold plain_write.
    destruct (plain_name filename); (split; [reflexivity | left; split; reflexivity]).
Defined.

(** ** Worlds for the examples *)

Definition empty_world : World :=
  {| db := {| models := []; routing_rules := []; file_routing_rules := [] |};
     uploads := ∅ |}.

(** The world after start-up on an empty database. *)
Definition initial_world : World := (initialize_models empty_world).2.

(** Three prompt rules on top of it, added through the admin route; the
    second and the third both match a prompt such as "URGENT: help". *)
Definition routed_world : World :=
  let w1 := (add_regex_rule "openai/gpt-3.5" "invoice" "gemini/gemini-alpha"
                            initial_world).2 in
  let w2 := (add_regex_rule "openai/gpt-3.5" "urgent" "anthropic/claude-v1" w1).2 in
  (add_regex_rule "anthropic/claude-v1" "help" "gemini/gemini-alpha" w2).2.

(** The same with a rule whose pattern does not compile in second place. *)
Definition broken_world : World :=
  let w1 := (add_regex_rule "openai/gpt-3.5" "invoice" "gemini/gemini-alpha"
                            initial_world).2 in
  let w2 := (add_regex_rule "openai/gpt-3.5" "(" "anthropic/claude-v1" w1).2 in
  (add_regex_rule "anthropic/claude-v1" "help" "gemini/gemini-alpha" w2).2.

(** A world whose only model is "openai/gpt-3.5", with no rule. *)
Definition single_model_world : World :=
  (insert_model "openai/gpt-3.5" empty_world).2.

(** The rows of these worlds. *)
Definition invoice_rule : RoutingRule.t :=
  {| RoutingRule.id := 1;
     RoutingRule.original_model := "openai/gpt-3.5";
     RoutingRule.regex_pattern := "invoice";
     RoutingRule.redirect_model := "gemini/gemini-alpha" |}.

Definition urgent_rule : RoutingRule.t :=
  {| RoutingRule.id := 2;
     RoutingRule.original_model := "openai/gpt-3.5";
     RoutingRule.regex_pattern := "urgent";
     RoutingRule.redirect_model := "anthropic/claude-v1" |}.

Definition unclosed_rule : RoutingRule.t :=
  {| RoutingRule.id := 2;
     RoutingRule.original_model := "openai/gpt-3.5";
     RoutingRule.regex_pattern := "(";
     RoutingRule.redirect_model := "anthropic/claude-v1" |}.

Definition help_rule : RoutingRule.t :=
  {| RoutingRule.id := 3;
     RoutingRule.original_model := "anthropic/claude-v1";
     RoutingRule.regex_pattern := "help";
     RoutingRule.redirect_model := "gemini/gemini-alpha" |}.

Definition png_rule : FileRoutingRule.t :=
  {| FileRoutingRule.id := 1;
     FileRoutingRule.file_type := "png";
     FileRoutingRule.redirect_provider := "gemini";
     FileRoutingRule.redirect_model := "gemini/gemini-alpha" |}.

Definition pdf_rule : FileRoutingRule.t :=
  {| FileRoutingRule.id := 2;
     FileRoutingRule.file_type := "pdf";
     FileRoutingRule.redirect_provider := "openai";
     FileRoutingRule.redirect_model := "openai/gpt-3.5" |}.

(** Rules for the files of type "png" and "pdf". *)
Definition files_world : World :=
  let w1 := (add_file_routing_rule "png" "gemini" "gemini/gemini-alpha"
                                   initial_world).2 in
  (add_file_routing_rule "pdf" "openai" "openai/gpt-3.5" w1).2.

(** ** Vocabulary of the statements *)

(** The names of the stored models. *)
Definition model_names (w : World) : list string :=
  Model.name <$> models (db w).

(** No two rows of [file_routing_rules] have the same [file_type]: the
    constraint the table is declared with. *)
Definition file_types_unique (w : World) : Prop :=
  NoDup (FileRoutingRule.file_type <$> file_routing_rules (db w)).

(** A rule is for the files of type [ext], or is not. *)
Definition rule_for (ext : string) (rule : FileRoutingRule.t) : Prop :=
  FileRoutingRule.file_type rule = ext.
Definition not_rule_for (ext : string) (rule : FileRoutingRule.t) : Prop :=
  FileRoutingRule.file_type rule <> ext.

(** The same world with other prompt rules. *)
Definition with_routing_rules (rules : list RoutingRule.t) (w : World) : World :=
  {| db := {| models := models (db w);
              routing_rules := rules;
              file_routing_rules := file_routing_rules (db w) |};
     uploads := uploads w |}.

(** The same rule recorded for another original model. *)
Definition with_original_model (original_model : string) (rule : RoutingRule.t)
  : RoutingRule.t :=
  {| RoutingRule.id := RoutingRule.id rule;
     RoutingRule.original_model := original_model;
     RoutingRule.regex_pattern := RoutingRule.regex_pattern rule;
     RoutingRule.redirect_model := RoutingRule.redirect_model rule |}.

(** The same world with other file rules. *)
Definition with_file_routing_rules (rules : list FileRoutingRule.t) (w : World)
  : World :=
  {| db := {| models := models (db w);
              routing_rules := routing_rules (db w);
              file_routing_rules := rules |};
     uploads := uploads w |}.

(** The file types of the stored file rules. *)
Definition file_types (w : World) : list string :=
  FileRoutingRule.file_type <$> file_routing_rules (db w).

(** The world [plain_files] leaves when it has written a file of a plain
    name: the file is among the uploads and nothing else has changed. *)
Definition with_upload (file : UploadFile.t) (w : World) : World :=
  {| db := db w;
     uploads := <[UploadFile.filename file := UploadFile.file file]> (uploads w) |}.

Section Tests.
Context {E : re.engine}.

(** What the loop of [chat_completions] finds out about one rule. *)
Definition test (prompt : string) (rule : RoutingRule.t) : outcome bool :=
  re.search (RoutingRule.regex_pattern rule) prompt re.IGNORECASE.

Definition no_match (prompt : string) (rule : RoutingRule.t) : Prop :=
  test prompt rule = Returned false.
End Tests.

(** The same world with other models. *)
Definition with_models (rows : list Model.t) (w : World) : World :=
  {| db := {| models := rows;
              routing_rules := routing_rules (db w);
              file_routing_rules := file_routing_rules (db w) |};
     uploads := uploads w |}.

(** The primary keys of the two tables of rules. *)
Definition routing_rule_ids (w : World) : list Z :=
  RoutingRule.id <$> routing_rules (db w).
Definition file_routing_rule_ids (w : World) : list Z :=
  FileRoutingRule.id <$> file_routing_rules (db w).

(** The largest rowid of SQLite. *)
Definition max_rowid : Z := 2 ^ 63 - 1.

(** The keys of a table as the program leaves them: in the order of the
    table, positive, and below the largest rowid, so that the next key is
    one more than the last. *)
Definition rowids_regular (ids : list Z) : Prop :=
  StronglySorted Z.lt ids /\ Forall (fun x => 0 < x < max_rowid) ids.

(** * Properties *)

(** ** Strings *)

Lemma split_nonempty (s : string) (sep : ascii) : split s sep <> [].
Proof.
  destruct s as [|c s]; simpl; [discriminate|].
  destruct (Ascii.eqb c sep); [discriminate|].
  destruct (split s sep); discriminate.
Qed.





Section Extension.
Context {S : str.unicode}.

Lemma file_ext_of_returns (filename : string) :
  exists piece, last (split filename ".") = Some piece
                /\ file_ext_of filename = Returned (str.lower piece).
Proof.
  unfold file_ext_of, last_item.
  destruct (last (split filename ".")) as [piece|] eqn:Hl.
  - exists piece. split; reflexivity.
  - apply last_None in Hl. exfalso. eapply split_nonempty, Hl.
Qed.


End Extension.

(** ** The loop over the prompt rules *)

Section Loop.
Context {E : re.engine}.
Implicit Types (rule : RoutingRule.t) (rules before after : list RoutingRule.t).
Implicit Types (provider model prompt : string).

(** Rules that do not match are passed over. *)
Lemma loop_skip before rules prompt model :
  Forall (no_match prompt) before ->
  chat_completions_loop (before ++ rules) prompt model
  = chat_completions_loop rules prompt model.
Proof.
  induction 1 as [|rule before Hrule _ IH]; simpl; [reflexivity|].
  unfold no_match, test in Hrule. rewrite Hrule. exact IH.
Qed.

Lemma loop_no_match rules prompt model :
  Forall (no_match prompt) rules ->
  chat_completions_loop rules prompt model = Returned model.
Proof.
  intros H. rewrite <- (app_nil_r rules). rewrite loop_skip by assumption.
  reflexivity.
Qed.

Lemma loop_first_match before rule after prompt model :
  Forall (no_match prompt) before ->
  test prompt rule = Returned true ->
  chat_completions_loop (before ++ rule :: after) prompt model
  = Returned (RoutingRule.redirect_model rule).
Proof.
  intros Hb Hr. rewrite loop_skip by assumption. simpl.
  unfold test in Hr. rewrite Hr. reflexivity.
Qed.

Lemma loop_raises before rule after prompt model e :
  Forall (no_match prompt) before ->
  test prompt rule = Raised e ->
  chat_completions_loop (before ++ rule :: after) prompt model = Raised e.
Proof.
  intros Hb Hr. rewrite loop_skip by assumption. simpl.
  unfold test in Hr. rewrite Hr. reflexivity.
Qed.

(** The loop reads the pattern and the redirect model of a rule, nothing
    else. *)
Lemma loop_original_model (f : RoutingRule.t -> string) rules prompt model :
  chat_completions_loop ((fun r => with_original_model (f r) r) <$> rules)
                        prompt model
  = chat_completions_loop rules prompt model.
Proof.
  induction rules as [|rule rules IH]; [reflexivity|].
  rewrite fmap_cons.
  cbn [chat_completions_loop with_original_model
       RoutingRule.regex_pattern RoutingRule.redirect_model].
  rewrite IH. reflexivity.
Qed.

(** The model the loop leaves is the requested one or the redirect model
    of a stored rule. *)
Lemma loop_returns rules prompt model effective :
  chat_completions_loop rules prompt model = Returned effective ->
  effective = model
  \/ exists rule, rule ∈ rules /\ test prompt rule = Returned true
                  /\ effective = RoutingRule.redirect_model rule.
Proof.
  induction rules as [|rule rules IH]; simpl.
  - intros [= <-]. left. reflexivity.
  - destruct (re.search _ _ _) as [[|]|e] eqn:Hs; [| |discriminate].
    + intros [= <-]. right. exists rule. repeat split; [left | exact Hs].
    + intros H. destruct (IH H) as [->|(r & Hin & Hr & ->)]; [left; reflexivity|].
      right. exists r. repeat split; [right; exact Hin | exact Hr].
Qed.

(** ** [chat_completions], case by case *)

Lemma chat_completions_unknown provider model prompt (w : World) :
  model ∉ model_names w ->
  chat_completions provider model prompt w
  = (Returned {[ "error" := "Model not supported" ]}, w).
Proof.
  intros H. unfold chat_completions, bind, query_models. simpl.
  destruct (decide _) as [_|Hin]; [reflexivity|].
  exfalso. apply Hin. rewrite elem_of_list_to_set. exact H.
Qed.

Lemma chat_completions_known provider model prompt (w : World) :
  model ∈ model_names w ->
  chat_completions provider model prompt w
  = (match chat_completions_loop (routing_rules (db w)) prompt model with
     | Returned effective =>
         Returned {[ "provider" := provider;
                     "model" := effective;
                     "response" := default "Response not available."
                                           (responses !! effective) ]}
     | Raised e => Raised e
     end, w).
Proof.
  intros H. unfold chat_completions, bind, query_models. simpl.
  destruct (decide _) as [Hout|_].
  - exfalso. apply Hout. rewrite elem_of_list_to_set. exact H.
  - unfold query_routing_rules, lift, ret.
    destruct (chat_completions_loop _ _ _); reflexivity.
Qed.

(** A request never changes the world. *)
Lemma chat_completions_reads_only provider model prompt (w : World) :
  (chat_completions provider model prompt w).2 = w.
Proof.
  destruct (decide (model ∈ model_names w)) as [H|H].
  - rewrite chat_completions_known by assumption. reflexivity.
  - rewrite chat_completions_unknown by assumption. reflexivity.
Qed.
End Loop.

(** Closes a decidable goal by evaluation. *)
Ltac by_evaluation := apply (bool_decide_unpack _); vm_compute; exact I.

(** ** Chat requests *)

Section Chat.
Context {E : re.engine}.
Implicit Types (rule : RoutingRule.t) (rules before after : list RoutingRule.t).
Implicit Types (provider model prompt : string) (w : World).

(** C1: the rules are tested in the order of the table, each pattern
    searched in the prompt with the flag IGNORECASE, and the first rule
    that matches decides: the answer carries its [redirect_model],
    whatever rules come after it.  The [original_model] of the rules is
    not read: recording the rules for other original models, by any
    function [f], leaves the answer as it is. *)
Theorem chat_first_match_wins provider model prompt w before rule after :
  model ∈ model_names w ->
  routing_rules (db w) = before ++ rule :: after ->
  Forall (no_match prompt) before ->
  test prompt rule = Returned true ->
  chat_completions provider model prompt w
  = (Returned {[ "provider" := provider;
                 "model" := RoutingRule.redirect_model rule;
                 "response" :=
                   default "Response not available."
                           (responses !! RoutingRule.redirect_model rule) ]}, w)
  /\ forall f : RoutingRule.t -> string,
       (chat_completions provider model prompt
          (with_routing_rules
             ((fun r => with_original_model (f r) r) <$> routing_rules (db w))
             w)).1
       = (chat_completions provider model prompt w).1.
Proof.
  intros Hm Hrules Hb Hr. split.
  - rewrite chat_completions_known by assumption.
    rewrite Hrules, loop_first_match by assumption. reflexivity.
  - intros f.
    rewrite !chat_completions_known by assumption.
    cbn [with_routing_rules db routing_rules fst].
    rewrite loop_original_model. reflexivity.
Qed.

(** C2: a request for a model whose name is not stored is answered with
    the payload [{"error": "Model not supported"}], which has no provider,
    model or response; this holds whatever the rules of the world are and
    whatever the engine does on them, as neither is consulted. *)
Theorem chat_unknown_model provider model prompt w :
  model ∉ model_names w ->
  exists payload : gmap string string,
    chat_completions provider model prompt w = (Returned payload, w)
    /\ payload = {[ "error" := "Model not supported" ]}
    /\ payload !! "provider" = None
    /\ payload !! "model" = None
    /\ payload !! "response" = None.
Proof.
  intros H. eexists. split; [apply chat_completions_unknown, H|].
  repeat split; reflexivity.
Qed.

(** C3: when the requested model is stored and no rule matches the prompt,
    in particular when there is no rule, the answer carries the requested
    model. *)
Theorem chat_no_match_keeps_model provider model prompt w :
  model ∈ model_names w ->
  Forall (no_match prompt) (routing_rules (db w)) ->
  chat_completions provider model prompt w
  = (Returned {[ "provider" := provider;
                 "model" := model;
                 "response" := default "Response not available."
                                       (responses !! model) ]}, w).
Proof.
  intros Hm Hn. rewrite chat_completions_known by assumption.
  rewrite loop_no_match by assumption. reflexivity.
Qed.
(** The error payload is the only answer with an "error". *)
Lemma chat_completions_success provider model prompt w w' payload :
  chat_completions provider model prompt w = (Returned payload, w') ->
  payload !! "error" = None ->
  exists effective,
    chat_completions_loop (routing_rules (db w)) prompt model = Returned effective
    /\ payload = {[ "provider" := provider;
                    "model" := effective;
                    "response" := default "Response not available."
                                          (responses !! effective) ]}.
Proof.
  intros Hc Hok. destruct (decide (model ∈ model_names w)) as [H|H].
  - rewrite chat_completions_known in Hc by assumption.
    destruct (chat_completions_loop _ _ _) as [effective|e]; [|discriminate].
    exists effective. split; [reflexivity|]. congruence.
  - rewrite chat_completions_unknown in Hc by assumption.
    injection Hc as <- _. discriminate Hok.
Qed.

(** C4: in every answer that is not the error payload, the response is
    the text the table [responses] gives for the model of the answer, the
    model the loop over the rules left, and "Response not available." when
    the table has none; the table has three entries, and the text for
    "openai/gpt-3.5" is the one quoted. *)
Theorem chat_response_text provider model prompt w w' payload :
  chat_completions provider model prompt w = (Returned payload, w') ->
  payload !! "error" = None ->
  (exists effective,
      chat_completions_loop (routing_rules (db w)) prompt model
      = Returned effective
      /\ payload !! "model" = Some effective
      /\ payload !! "response"
         = Some (match responses !! effective with
                 | Some text => text
                 | None => "Response not available."
                 end))
  /\ size responses = 3%nat
  /\ responses !! "openai/gpt-3.5"
     = Some "OpenAI: Processed your prompt with advanced language understanding.".
Proof.
  intros Hc Hok.
  destruct (chat_completions_success _ _ _ _ _ _ Hc Hok) as (effective & Hl & ->).
  split; [|split; reflexivity].
  exists effective. split; [exact Hl|]. split; [reflexivity|].
  destruct (responses !! effective); reflexivity.
Qed.

(** C5: in every answer that is not the error payload, the provider is
    the provider of the request, whatever rule redirected the model. *)
Theorem chat_provider_unchanged provider model prompt w w' payload :
  chat_completions provider model prompt w = (Returned payload, w') ->
  payload !! "error" = None ->
  payload !! "provider" = Some provider.
Proof.
  intros Hc Hok.
  destruct (chat_completions_success _ _ _ _ _ _ Hc Hok) as (effective & _ & ->).
  reflexivity.
Qed.

(** C7: [add_regex_rule] stores the pattern it is given, whatever it is,
    and returns; and a request for a stored model that reaches a rule on
    whose pattern [re.search] raises, because no rule before it matched,
    ends with that exception: the rule is not skipped and no payload is
    returned. *)
Theorem chat_bad_pattern_raises provider model prompt w before rule after e
    original_model regex_pattern redirect_model :
  model ∈ model_names w ->
  routing_rules (db w) = before ++ rule :: after ->
  Forall (no_match prompt) before ->
  test prompt rule = Raised e ->
  chat_completions provider model prompt w = (Raised e, w)
  /\ add_regex_rule original_model regex_pattern redirect_model w
     = (Returned {| url := "/admin"; status_code := 303 |},
        with_routing_rules
          (routing_rules (db w)
           ++ [{| RoutingRule.id :=
                    next_id (RoutingRule.id <$> routing_rules (db w));
                  RoutingRule.original_model := original_model;
                  RoutingRule.regex_pattern := regex_pattern;
                  RoutingRule.redirect_model := redirect_model |}])
          w).
Proof.
  intros Hm Hrules Hb Hr. split; [|reflexivity].
  rewrite chat_completions_known by assumption.
  rewrite Hrules, loop_raises with (e := e) by assumption. reflexivity.
Qed.
End Chat.

(** ** The table of file rules *)

Section FileRules.
Implicit Types (rule : FileRoutingRule.t) (rules before after : list FileRoutingRule.t).
Implicit Types (ext file_type : string) (w : World).

Lemma find_skip ext before rules :
  Forall (not_rule_for ext) before ->
  List.find (fun r => String.eqb (FileRoutingRule.file_type r) ext)
            (before ++ rules)
  = List.find (fun r => String.eqb (FileRoutingRule.file_type r) ext) rules.
Proof.
  induction 1 as [|rule before Hrule _ IH]; simpl; [reflexivity|].
  apply String.eqb_neq in Hrule. rewrite Hrule. exact IH.
Qed.

Lemma find_first ext before rule after :
  Forall (not_rule_for ext) before ->
  rule_for ext rule ->
  List.find (fun r => String.eqb (FileRoutingRule.file_type r) ext)
            (before ++ rule :: after)
  = Some rule.
Proof.
  intros Hb Hr. rewrite find_skip by assumption. simpl.
  apply String.eqb_eq in Hr. rewrite Hr. reflexivity.
Qed.


(** In a table without duplicates the rows before a rule are for other
    file types. *)
Lemma unique_before before rule after :
  NoDup (FileRoutingRule.file_type <$> (before ++ rule :: after)) ->
  Forall (not_rule_for (FileRoutingRule.file_type rule)) before.
Proof.
  rewrite fmap_app, fmap_cons. intros H.
  apply NoDup_app in H as (_ & Hdisj & _).
  apply Forall_forall. intros r Hr Heq.
  apply (Hdisj (FileRoutingRule.file_type r)).
  - apply list_elem_of_fmap. exists r. split; [reflexivity | exact Hr].
  - rewrite Heq. left.
Qed.

Lemma existsb_file_type file_type rules :
  existsb (fun r => String.eqb (FileRoutingRule.file_type r) file_type) rules
  = true
  <-> file_type ∈ (FileRoutingRule.file_type <$> rules).
Proof.
  rewrite existsb_exists, list_elem_of_fmap. split.
  - intros (r & Hin & Heq). apply String.eqb_eq in Heq.
    exists r. split; [symmetry; exact Heq | apply list_elem_of_In, Hin].
  - intros (r & Heq & Hin). exists r.
    split; [apply list_elem_of_In, Hin | apply String.eqb_eq; symmetry; exact Heq].
Qed.

Lemma insert_file_routing_rule_taken file_type redirect_provider redirect_model w :
  file_type ∈ file_types w ->
  insert_file_routing_rule file_type redirect_provider redirect_model w
  = (Raised IntegrityError, w).
Proof.
  intros H. unfold insert_file_routing_rule.
  apply existsb_file_type in H. cbv zeta. rewrite H. reflexivity.
Qed.

Lemma insert_file_routing_rule_free file_type redirect_provider redirect_model w :
  file_type ∉ file_types w ->
  insert_file_routing_rule file_type redirect_provider redirect_model w
  = (Returned tt,
     with_file_routing_rules
       (file_routing_rules (db w)
        ++ [{| FileRoutingRule.id :=
                 next_id (FileRoutingRule.id <$> file_routing_rules (db w));
               FileRoutingRule.file_type := file_type;
               FileRoutingRule.redirect_provider := redirect_provider;
               FileRoutingRule.redirect_model := redirect_model |}])
       w).
Proof.
  intros H. unfold insert_file_routing_rule. cbv zeta.
  destruct (existsb _ _) eqn:He; [|reflexivity].
  exfalso. apply H, existsb_file_type, He.
Qed.

Lemma add_file_routing_rule_taken file_type redirect_provider redirect_model w :
  file_type ∈ file_types w ->
  add_file_routing_rule file_type redirect_provider redirect_model w
  = (Raised IntegrityError, w).
Proof.
  intros H. unfold add_file_routing_rule, bind.
  rewrite insert_file_routing_rule_taken by assumption. reflexivity.
Qed.

Lemma add_file_routing_rule_free file_type redirect_provider redirect_model w :
  file_type ∉ file_types w ->
  add_file_routing_rule file_type redirect_provider redirect_model w
  = (Returned {| url := "/admin"; status_code := 303 |},
     with_file_routing_rules
       (file_routing_rules (db w)
        ++ [{| FileRoutingRule.id :=
                 next_id (FileRoutingRule.id <$> file_routing_rules (db w));
               FileRoutingRule.file_type := file_type;
               FileRoutingRule.redirect_provider := redirect_provider;
               FileRoutingRule.redirect_model := redirect_model |}])
       w).
Proof.
  intros H. unfold add_file_routing_rule, bind.
  rewrite insert_file_routing_rule_free by assumption. reflexivity.
Qed.

(** After the insert, returned or refused, a rule of the file type is
    stored. *)
Lemma add_file_routing_rule_stored file_type redirect_provider redirect_model w :
  file_type
  ∈ file_types (add_file_routing_rule file_type redirect_provider redirect_model w).2.
Proof.
  destruct (decide (file_type ∈ file_types w)) as [H|H].
  - rewrite add_file_routing_rule_taken by assumption. exact H.
  - rewrite add_file_routing_rule_free by assumption.
    unfold file_types. cbn [snd with_file_routing_rules db file_routing_rules].
    rewrite fmap_app. apply elem_of_app. right. left.
Qed.

(** The insert keeps the file types unique. *)
Lemma add_file_routing_rule_unique file_type redirect_provider redirect_model w :
  file_types_unique w ->
  file_types_unique
    (add_file_routing_rule file_type redirect_provider redirect_model w).2.
Proof.
  intros Hu. destruct (decide (file_type ∈ file_types w)) as [H|H].
  - rewrite add_file_routing_rule_taken by assumption. exact Hu.
  - rewrite add_file_routing_rule_free by assumption.
    unfold file_types_unique.
    cbn [snd with_file_routing_rules db file_routing_rules].
    rewrite fmap_app. apply NoDup_app. split; [exact Hu|]. split.
    + intros x Hx Hx'. apply list_elem_of_singleton in Hx'. subst x.
      exact (H Hx).
    + apply NoDup_singleton.
Qed.

(** In a table without duplicates, the query for the file type of a stored
    rule finds that rule. *)
Lemma query_unique rule w :
  file_types_unique w ->
  rule ∈ file_routing_rules (db w) ->
  query_file_routing_rule_first (FileRoutingRule.file_type rule) w
  = (Returned (Some rule), w).
Proof.
  intros Hu Hin. unfold query_file_routing_rule_first.
  apply list_elem_of_split in Hin as (before & after & Hrules).
  unfold file_types_unique in Hu. rewrite Hrules in Hu |- *.
  rewrite find_first; [reflexivity | | reflexivity].
  eapply unique_before, Hu.
Qed.
End FileRules.

(** ** File uploads *)

(** [upload_file], once the extension is known: the copy decides between an
    exception and an answer, and the answer is read off the file rules of
    the world the copy left. *)
Lemma upload_file_run {S : str.unicode} {D : os.files} file w ext :
  file_ext_of (UploadFile.filename file) = Returned ext ->
  upload_file file w
  = match save_upload (UploadFile.filename file) (UploadFile.file file) w with
    | (Returned _, w1) =>
        (Returned
           match List.find (fun r => String.eqb (FileRoutingRule.file_type r) ext)
                           (file_routing_rules (db w1)) with
           | Some rule =>
               {[ "filename" := UploadFile.filename file;
                  "provider" := FileRoutingRule.redirect_provider rule;
                  "model" := FileRoutingRule.redirect_model rule;
                  "response" :=
                    FileRoutingRule.redirect_provider rule
                    +:+ ": File processed with AI model "
                    +:+ FileRoutingRule.redirect_model rule +:+ "." ]}
           | None =>
               {[ "filename" := UploadFile.filename file;
                  "response" := "File uploaded successfully." ]}
           end, w1)
    | (Raised e, w1) => (Raised e, w1)
    end.
Proof.
  intros Hext. unfold upload_file, bind, lift. cbv zeta. rewrite Hext.
  destruct (save_upload _ _ w) as [[[]|e] w1]; [|reflexivity].
  unfold query_file_routing_rule_first.
  destruct (List.find _ _); reflexivity.
Qed.

(** The extension of "archive.tar.GZ" is "gz". *)
Example file_ext_of_last_suffix :
  file_ext_of (S := plain_str) "archive.tar.GZ" = Returned "gz".
Proof. reflexivity. Qed.

Section Upload.
Context {S : str.unicode} {D : os.files}.
Implicit Types (rule : FileRoutingRule.t) (rules before after : list FileRoutingRule.t).
Implicit Types (ext : string) (file : UploadFile.t) (w : World).

(** C8: once the upload is on the disk, when the table has a rule for the
    extension of the file, the extension being the lower-cased one and the
    comparison the equality of strings, the answer carries the provider and
    the model of the first such rule and the sentence built from the two.
    [w1] is the world the copy of the file leaves, where the lookup of
    lines 102 to 109 takes place. *)
Theorem upload_routed file w w1 ext before rule after :
  file_ext_of (UploadFile.filename file) = Returned ext ->
  save_upload (UploadFile.filename file) (UploadFile.file file) w
  = (Returned tt, w1) ->
  file_routing_rules (db w1) = before ++ rule :: after ->
  Forall (not_rule_for ext) before ->
  rule_for ext rule ->
  upload_file file w
  = (Returned {[ "filename" := UploadFile.filename file;
                 "provider" := FileRoutingRule.redirect_provider rule;
                 "model" := FileRoutingRule.redirect_model rule;
                 "response" :=
                   FileRoutingRule.redirect_provider rule
                   +:+ ": File processed with AI model "
                   +:+ FileRoutingRule.redirect_model rule +:+ "." ]},
     w1).
Proof.
  intros Hext Hcopy Hrules Hb Hr. rewrite (upload_file_run _ _ _ Hext), Hcopy.
  rewrite Hrules, find_first by assumption. reflexivity.
Qed.



(** C6, as the code has it: [add_file_routing_rule] is an insert under the
    uniqueness of [file_type].  On a table without duplicates the insert
    leaves a table without duplicates; it is refused with an integrity
    error, the world unchanged, when a rule of the file type is stored, and
    appends the rule otherwise; and the lookup of the file type of a stored
    rule finds that rule, the only one of its type. *)
Theorem file_rule_insert_unique file_type redirect_provider redirect_model w :
  file_types_unique w ->
  let result :=
    add_file_routing_rule file_type redirect_provider redirect_model w in
  file_types_unique result.2
  /\ (file_type ∈ file_types w -> result = (Raised IntegrityError, w))
  /\ (file_type ∉ file_types w ->
      result
      = (Returned {| url := "/admin"; status_code := 303 |},
         with_file_routing_rules
           (file_routing_rules (db w)
            ++ [{| FileRoutingRule.id :=
                     next_id (FileRoutingRule.id <$> file_routing_rules (db w));
                   FileRoutingRule.file_type := file_type;
                   FileRoutingRule.redirect_provider := redirect_provider;
                   FileRoutingRule.redirect_model := redirect_model |}])
           w))
  /\ (forall rule,
        rule ∈ file_routing_rules (db result.2) ->
        query_file_routing_rule_first (FileRoutingRule.file_type rule) result.2
        = (Returned (Some rule), result.2)).
Proof.
  intros Hu result.
  assert (Hu' : file_types_unique result.2)
    by (apply add_file_routing_rule_unique, Hu).
  split; [exact Hu'|]. split; [|split].
  - apply add_file_routing_rule_taken.
  - apply add_file_routing_rule_free.
  - intros rule Hin. apply query_unique; assumption.
Qed.

(** C6, as the claim has it, fails: of two inserts of the same file type
    the second never returns, and from a table without duplicates the two
    never leave a table with duplicates; so it is with a second rule for
    "pdf" in [files_world], refused with the world unchanged. *)
Lemma file_rule_duplicate_refused :
  ~ (exists w file_type provider1 model1 provider2 model2 response w',
        add_file_routing_rule file_type provider2 model2
          (add_file_routing_rule file_type provider1 model1 w).2
        = (Returned response, w'))
  /\ ~ (exists w file_type provider1 model1 provider2 model2,
          file_types_unique w
          /\ ~ file_types_unique
                 (add_file_routing_rule file_type provider2 model2
                    (add_file_routing_rule file_type provider1 model1 w).2).2)
  /\ add_file_routing_rule "pdf" "anthropic" "anthropic/claude-v1" files_world
     = (Raised IntegrityError, files_world).
Proof.
  split; [|split; [|reflexivity]].
  - intros (w & ft & p1 & m1 & p2 & m2 & response & w' & Hret).
    rewrite add_file_routing_rule_taken in Hret; [discriminate|].
    apply add_file_routing_rule_stored.
  - intros (w & ft & p1 & m1 & p2 & m2 & Hu & Hdup). apply Hdup.
    apply add_file_routing_rule_unique, add_file_routing_rule_unique, Hu.
Qed.
End Upload.

(** * The theorems at work

    The statements above, applied to the example worlds with the engine
    [plain_engine]. *)

Lemma chat_first_match_wins_witness :
  "openai/gpt-3.5" ∈ model_names routed_world
  /\ routing_rules (db routed_world) = [invoice_rule] ++ urgent_rule :: [help_rule]
  /\ Forall (no_match (E := plain_engine) "URGENT: help") [invoice_rule]
  /\ test (E := plain_engine) "URGENT: help" urgent_rule = Returned true
  /\ (chat_completions (E := plain_engine)
        "openai" "openai/gpt-3.5" "URGENT: help" routed_world
      = (Returned
           {[ "provider" := "openai";
              "model" := "anthropic/claude-v1";
              "response" :=
                "Anthropic: Your prompt has been interpreted with ethical AI principles." ]},
         routed_world)
      /\ forall f : RoutingRule.t -> string,
           (chat_completions (E := plain_engine)
              "openai" "openai/gpt-3.5" "URGENT: help"
              (with_routing_rules
                 ((fun r => with_original_model (f r) r)
                    <$> routing_rules (db routed_world))
                 routed_world)).1
           = (chat_completions (E := plain_engine)
                "openai" "openai/gpt-3.5" "URGENT: help" routed_world).1).
Proof.
  assert (Hm : "openai/gpt-3.5" ∈ model_names routed_world) by by_evaluation.
  assert (Hrules : routing_rules (db routed_world)
                   = [invoice_rule] ++ urgent_rule :: [help_rule]) by reflexivity.
  assert (Hb : Forall (no_match (E := plain_engine) "URGENT: help") [invoice_rule])
    by (repeat constructor).
  assert (Hr : test (E := plain_engine) "URGENT: help" urgent_rule = Returned true)
    by reflexivity.
  exact (conj Hm (conj Hrules (conj Hb (conj Hr
           (chat_first_match_wins (E := plain_engine)
              "openai" "openai/gpt-3.5" "URGENT: help" routed_world
              [invoice_rule] urgent_rule [help_rule] Hm Hrules Hb Hr))))).
Defined.

Lemma chat_unknown_model_witness :
  ("unknown/model" ∉ model_names routed_world)
  /\ exists payload : gmap string string,
       chat_completions (E := plain_engine) "openai" "unknown/model" "hi" routed_world
       = (Returned payload, routed_world)
       /\ payload = {[ "error" := "Model not supported" ]}
       /\ payload !! "provider" = None
       /\ payload !! "model" = None
       /\ payload !! "response" = None.
Proof.
  assert (Hm : "unknown/model" ∉ model_names routed_world) by by_evaluation.
  exact (conj Hm (chat_unknown_model (E := plain_engine)
                    "openai" "unknown/model" "hi" routed_world Hm)).
Defined.

Lemma chat_no_match_keeps_model_witness :
  "gemini/gemini-alpha" ∈ model_names routed_world
  /\ Forall (no_match (E := plain_engine) "hello there")
            (routing_rules (db routed_world))
  /\ chat_completions (E := plain_engine)
       "gemini" "gemini/gemini-alpha" "hello there" routed_world
     = (Returned
          {[ "provider" := "gemini";
             "model" := "gemini/gemini-alpha";
             "response" :=
               default "Response not available."
                       (responses !! "gemini/gemini-alpha") ]},
        routed_world).
Proof.
  assert (Hm : "gemini/gemini-alpha" ∈ model_names routed_world) by by_evaluation.
  assert (Hn : Forall (no_match (E := plain_engine) "hello there")
                      (routing_rules (db routed_world)))
    by (repeat constructor).
  exact (conj Hm (conj Hn
           (chat_no_match_keeps_model (E := plain_engine)
              "gemini" "gemini/gemini-alpha" "hello there" routed_world Hm Hn))).
Defined.

Lemma chat_response_text_witness :
  chat_completions (E := plain_engine)
    "openai" "openai/gpt-3.5" "hello" single_model_world
  = (Returned
       {[ "provider" := "openai";
          "model" := "openai/gpt-3.5";
          "response" :=
            "OpenAI: Processed your prompt with advanced language understanding." ]},
     single_model_world)
  /\ ({[ "provider" := "openai";
         "model" := "openai/gpt-3.5";
         "response" :=
           "OpenAI: Processed your prompt with advanced language understanding." ]}
      : gmap string string) !! "error" = None
  /\ (exists effective,
         chat_completions_loop (E := plain_engine)
           (routing_rules (db single_model_world)) "hello" "openai/gpt-3.5"
         = Returned effective
         /\ ({[ "provider" := "openai";
                "model" := "openai/gpt-3.5";
                "response" :=
                  "OpenAI: Processed your prompt with advanced language understanding." ]}
             : gmap string string) !! "model" = Some effective
         /\ ({[ "provider" := "openai";
                "model" := "openai/gpt-3.5";
                "response" :=
                  "OpenAI: Processed your prompt with advanced language understanding." ]}
             : gmap string string) !! "response"
            = Some (match responses !! effective with
                    | Some text => text
                    | None => "Response not available."
                    end))
  /\ size responses = 3%nat
  /\ responses !! "openai/gpt-3.5"
     = Some "OpenAI: Processed your prompt with advanced language understanding.".
Proof.
  split; [reflexivity|]. split; [reflexivity|].
  apply (chat_response_text (E := plain_engine)
           "openai" "openai/gpt-3.5" "hello" single_model_world single_model_world);
    reflexivity.
Defined.

Lemma chat_provider_unchanged_witness :
  chat_completions (E := plain_engine)
    "openai" "openai/gpt-3.5" "URGENT: help" routed_world
  = (Returned
       {[ "provider" := "openai";
          "model" := "anthropic/claude-v1";
          "response" :=
            "Anthropic: Your prompt has been interpreted with ethical AI principles." ]},
     routed_world)
  /\ ({[ "provider" := "openai";
         "model" := "anthropic/claude-v1";
         "response" :=
           "Anthropic: Your prompt has been interpreted with ethical AI principles." ]}
      : gmap string string) !! "error" = None
  /\ ({[ "provider" := "openai";
         "model" := "anthropic/claude-v1";
         "response" :=
           "Anthropic: Your prompt has been interpreted with ethical AI principles." ]}
      : gmap string string) !! "provider" = Some "openai".
Proof.
  split; [reflexivity|]. split; [reflexivity|].
  apply (chat_provider_unchanged (E := plain_engine)
           "openai" "openai/gpt-3.5" "URGENT: help" routed_world routed_world);
    reflexivity.
Defined.

Lemma chat_bad_pattern_raises_witness :
  "openai/gpt-3.5" ∈ model_names broken_world
  /\ routing_rules (db broken_world) = [invoice_rule] ++ unclosed_rule :: [help_rule]
  /\ Forall (no_match (E := plain_engine) "please help") [invoice_rule]
  /\ test (E := plain_engine) "please help" unclosed_rule = Raised re_error
  /\ chat_completions (E := plain_engine)
       "openai" "openai/gpt-3.5" "please help" broken_world
     = (Raised re_error, broken_world)
  /\ add_regex_rule "openai/gpt-3.5" "[a-" "gemini/gemini-alpha" broken_world
     = (Returned {| url := "/admin"; status_code := 303 |},
        with_routing_rules
          (routing_rules (db broken_world)
           ++ [{| RoutingRule.id :=
                    next_id (RoutingRule.id <$> routing_rules (db broken_world));
                  RoutingRule.original_model := "openai/gpt-3.5";
                  RoutingRule.regex_pattern := "[a-";
                  RoutingRule.redirect_model := "gemini/gemini-alpha" |}])
          broken_world).
Proof.
  assert (Hm : "openai/gpt-3.5" ∈ model_names broken_world) by by_evaluation.
  assert (Hrules : routing_rules (db broken_world)
                   = [invoice_rule] ++ unclosed_rule :: [help_rule]) by reflexivity.
  assert (Hb : Forall (no_match (E := plain_engine) "please help") [invoice_rule])
    by (repeat constructor).
  assert (Hr : test (E := plain_engine) "please help" unclosed_rule = Raised re_error)
    by reflexivity.
  exact (conj Hm (conj Hrules (conj Hb (conj Hr
           (chat_bad_pattern_raises (E := plain_engine)
              "openai" "openai/gpt-3.5" "please help" broken_world
              [invoice_rule] unclosed_rule [help_rule] re_error
              "openai/gpt-3.5" "[a-" "gemini/gemini-alpha" Hm Hrules Hb Hr))))).
Defined.

Lemma upload_routed_witness :
  let file := {| UploadFile.filename := "Report.PDF"; UploadFile.file := "%PDF-1.7" |} in
  file_ext_of (S := plain_str) (UploadFile.filename file) = Returned "pdf"
  /\ save_upload (D := plain_files)
       (UploadFile.filename file) (UploadFile.file file) files_world
     = (Returned tt, with_upload file files_world)
  /\ file_routing_rules (db (with_upload file files_world))
     = [png_rule] ++ pdf_rule :: []
  /\ Forall (not_rule_for "pdf") [png_rule]
  /\ rule_for "pdf" pdf_rule
  /\ upload_file (S := plain_str) (D := plain_files) file files_world
     = (Returned {[ "filename" := "Report.PDF";
                    "provider" := "openai";
                    "model" := "openai/gpt-3.5";
                    "response" :=
                      "openai: File processed with AI model openai/gpt-3.5." ]},
        with_upload file files_world).
Proof.
  intros file.
  assert (Hext : file_ext_of (S := plain_str) (UploadFile.filename file)
                 = Returned "pdf") by reflexivity.
  assert (Hcopy : save_upload (D := plain_files)
                    (UploadFile.filename file) (UploadFile.file file) files_world
                  = (Returned tt, with_upload file files_world)) by reflexivity.
  assert (Hrules : file_routing_rules (db (with_upload file files_world))
                   = [png_rule] ++ pdf_rule :: []) by reflexivity.
  assert (Hb : Forall (not_rule_for "pdf") [png_rule])
    by (repeat constructor; discriminate).
  assert (Hr : rule_for "pdf" pdf_rule) by reflexivity.
  exact (conj Hext (conj Hcopy (conj Hrules (conj Hb (conj Hr
           (upload_routed (S := plain_str) (D := plain_files)
              file files_world (with_upload file files_world) "pdf"
              [png_rule] pdf_rule [] Hext Hcopy Hrules Hb Hr)))))).
Defined.



(** The same upload, evaluated: the key is "readme", no rule is stored for
    it, and the file is on the disk. *)
Example upload_readme :
  upload_file (S := plain_str) (D := plain_files)
    {| UploadFile.filename := "README"; UploadFile.file := "unbound" |} files_world
  = (Returned {[ "filename" := "README";
                 "response" := "File uploaded successfully." ]},
     with_upload {| UploadFile.filename := "README"; UploadFile.file := "unbound" |}
                 files_world).
Proof. reflexivity. Qed.

(** An upload under a directory that does not exist ends with the exception
    of the copy, whatever the rules. *)
Example upload_refused_by_the_disk :
  upload_file (S := plain_str) (D := plain_files)
    {| UploadFile.filename := "sub/report.pdf"; UploadFile.file := "%PDF-1.7" |}
    files_world
  = (Raised OSError, files_world).
Proof. reflexivity. Qed.

Lemma file_rule_insert_unique_witness :
  file_types_unique files_world
  /\ let result :=
       add_file_routing_rule "pdf" "anthropic" "anthropic/claude-v1" files_world in
     file_types_unique result.2
     /\ ("pdf" ∈ file_types files_world -> result = (Raised IntegrityError, files_world))
     /\ ("pdf" ∉ file_types files_world ->
         result
         = (Returned {| url := "/admin"; status_code := 303 |},
            with_file_routing_rules
              (file_routing_rules (db files_world)
               ++ [{| FileRoutingRule.id :=
                        next_id (FileRoutingRule.id
                                   <$> file_routing_rules (db files_world));
                      FileRoutingRule.file_type := "pdf";
                      FileRoutingRule.redirect_provider := "anthropic";
                      FileRoutingRule.redirect_model := "anthropic/claude-v1" |}])
              files_world))
     /\ (forall rule,
           rule ∈ file_routing_rules (db result.2) ->
           query_file_routing_rule_first (FileRoutingRule.file_type rule) result.2
           = (Returned (Some rule), result.2)).
Proof.
  assert (Hu : file_types_unique files_world)
    by (unfold file_types_unique; by_evaluation).
  exact (conj Hu (file_rule_insert_unique
                    "pdf" "anthropic" "anthropic/claude-v1" files_world Hu)).
Defined.


(** * Further properties *)

(** ** Start-up *)

Section StartUp.
Implicit Types (w : World) (names : list string) (S : gset string).

Lemma existsb_model_name name (rows : list Model.t) :
  existsb (fun m => String.eqb (Model.name m) name) rows = true
  <-> name ∈ (Model.name <$> rows).
Proof.
  rewrite existsb_exists, list_elem_of_fmap. split.
  - intros (m & Hin & Heq). apply String.eqb_eq in Heq.
    exists m. split; [symmetry; exact Heq | apply list_elem_of_In, Hin].
  - intros (m & Heq & Hin). exists m.
    split; [apply list_elem_of_In, Hin | apply String.eqb_eq; symmetry; exact Heq].
Qed.

Lemma insert_model_free name w :
  name ∉ model_names w ->
  insert_model name w
  = (Returned tt,
     with_models (models (db w)
                  ++ [{| Model.id := next_id (Model.id <$> models (db w));
                         Model.name := name |}]) w).
Proof.
  intros H. unfold insert_model. cbv zeta.
  destruct (existsb _ _) eqn:He; [|reflexivity].
  exfalso. apply H, existsb_model_name, He.
Qed.

Lemma with_models_same w : with_models (models (db w)) w = w.
Proof. destruct w as [[rows rules file_rules] files]. reflexivity. Qed.

(** The loop of [initialize_models] over names that are pairwise distinct
    and, unless they are in [S], not stored: no insert is refused, and the
    rows added are those of the names outside [S], in order. *)
Lemma add_missing_models_spec S names w :
  NoDup names ->
  (forall n, n ∈ names -> n ∉ S -> n ∉ model_names w) ->
  exists added,
    add_missing_models S names w
    = (Returned tt, with_models (models (db w) ++ added) w)
    /\ Model.name <$> added = filter (fun n => n ∉ S) names.
Proof.
  intros Hnd. revert w.
  induction Hnd as [|n names Hn Hnd IH]; intros w Hfresh.
  - exists []. split; [|reflexivity].
    rewrite app_nil_r, with_models_same. reflexivity.
  - cbn [add_missing_models]. unfold bind.
    destruct (decide (n ∉ S)) as [Hout|Hin].
    + rewrite insert_model_free by (apply Hfresh; [left | exact Hout]).
      match goal with |- context [with_models (_ ++ [?r]) w] => set (row := r) end.
      destruct (IH (with_models (models (db w) ++ [row]) w)) as (added & Hrun & Hnames).
      { intros n' Hn' Hout'. unfold model_names.
        cbn [with_models db models]. rewrite fmap_app.
        intros Hmem. apply elem_of_app in Hmem as [Hmem|Hmem].
        - exact (Hfresh n' (list_elem_of_further _ _ _ Hn') Hout' Hmem).
        - apply list_elem_of_singleton in Hmem. cbn in Hmem. subst n'.
          exact (Hn Hn'). }
      exists (row :: added). split.
      * rewrite Hrun. cbn [with_models db models routing_rules
                           file_routing_rules uploads].
        rewrite <- app_assoc. reflexivity.
      * rewrite fmap_cons, Hnames, filter_cons_True by exact Hout. reflexivity.
    + destruct (IH w) as (added & Hrun & Hnames).
      { intros n' Hn'. apply Hfresh. right. exact Hn'. }
      exists added. split; [exact Hrun|].
      rewrite filter_cons_False by exact Hin. exact Hnames.
Qed.

(** Over names that are all in [S] the loop inserts nothing. *)
Lemma add_missing_models_known S names w :
  (forall n, n ∈ names -> n ∈ S) ->
  add_missing_models S names w = (Returned tt, w).
Proof.
  induction names as [|n names IH]; intros Hall; [reflexivity|].
  cbn [add_missing_models]. unfold bind.
  destruct (decide (n ∉ S)) as [Hout|_].
  - exfalso. apply Hout, Hall. left.
  - cbn. apply IH. intros n' Hn'. apply Hall. right. exact Hn'.
Qed.

Lemma default_models_NoDup : NoDup default_models.
Proof. apply (bool_decide_unpack _). vm_compute. exact I. Qed.

(** [initialize_models], in one equation. *)
Lemma initialize_models_spec w :
  exists added,
    initialize_models w = (Returned tt, with_models (models (db w) ++ added) w)
    /\ Model.name <$> added
       = filter (fun n => n ∉ (list_to_set (model_names w) : gset string))
                default_models.
Proof.
  unfold initialize_models, bind, query_models. cbv zeta.
  apply add_missing_models_spec; [apply default_models_NoDup|].
  intros n _ Hout Hin. apply Hout, elem_of_list_to_set, Hin.
Qed.
End StartUp.

Section StartUpProperties.
Implicit Types (w : World).

(** The rows [initialize_models] adds carry the default names that were not
    stored, in the order of [default_models]. *)
Lemma initialize_models_run w :
  exists added,
    initialize_models w = (Returned tt, with_models (models (db w) ++ added) w)
    /\ Model.name <$> added
       = filter (fun n => n ∉ model_names w) default_models.
Proof.
  destruct (initialize_models_spec w) as (added & Hrun & Hnames).
  exists added. split; [exact Hrun|]. rewrite Hnames.
  apply list_filter_iff. intros n. rewrite elem_of_list_to_set. reflexivity.
Qed.

(** X1: start-up never fails, whatever the database holds: it returns,
    leaves the rules and the uploads as they are, and [list_models] then
    gives, in some order, the names stored before and the default names that
    were missing, so that every default name is listed. *)
Theorem initialize_models_completes w :
  exists w' names,
    initialize_models w = (Returned tt, w')
    /\ list_models w' = (Returned names, w')
    /\ names ≡ₚ model_names w
                ++ filter (fun n => n ∉ model_names w) default_models
    /\ (forall n, n ∈ default_models -> n ∈ names)
    /\ routing_rules (db w') = routing_rules (db w)
    /\ file_routing_rules (db w') = file_routing_rules (db w)
    /\ uploads w' = uploads w.
Proof.
  destruct (initialize_models_run w) as (added & Hrun & Hnames).
  assert (Hlist : model_names (with_models (models (db w) ++ added) w)
                  = model_names w
                    ++ filter (fun n => n ∉ model_names w) default_models).
  { unfold model_names. cbn [with_models db models].
    rewrite fmap_app, Hnames. reflexivity. }
  exists (with_models (models (db w) ++ added) w),
         (model_names (with_models (models (db w) ++ added) w)).
  split; [exact Hrun|]. split; [reflexivity|].
  split; [rewrite Hlist; reflexivity|]. split; [|repeat split].
  intros n Hn. rewrite Hlist. apply elem_of_app.
  destruct (decide (n ∈ model_names w)) as [Hin|Hout]; [left; exact Hin|].
  right. apply list_elem_of_filter. split; assumption.
Qed.

(** X2: start-up is idempotent: run on the world a start-up left, it
    returns and changes nothing. *)
Theorem initialize_models_idempotent w :
  initialize_models (initialize_models w).2
  = (Returned tt, (initialize_models w).2).
Proof.
  destruct (initialize_models_run w) as (added & Hrun & Hnames).
  rewrite Hrun. cbn [snd].
  unfold initialize_models, bind, query_models. cbv zeta beta iota.
  apply add_missing_models_known. intros n Hn.
  apply elem_of_list_to_set. cbn [with_models db models].
  rewrite fmap_app, Hnames. apply elem_of_app.
  destruct (decide (n ∈ model_names w)) as [Hin|Hout]; [left; exact Hin|].
  right. apply list_elem_of_filter. split; assumption.
Qed.

(** X3: start-up keeps the names of the models pairwise distinct, as the
    unique column [name] demands. *)
Theorem initialize_models_names_unique w :
  NoDup (model_names w) ->
  NoDup (model_names (initialize_models w).2).
Proof.
  intros Hnd. destruct (initialize_models_run w) as (added & Hrun & Hnames).
  rewrite Hrun. unfold model_names at 1. cbn [snd with_models db models].
  rewrite fmap_app, Hnames. apply NoDup_app. split; [exact Hnd|]. split.
  - intros n Hin Hfil. apply list_elem_of_filter in Hfil as [Hout _].
    exact (Hout Hin).
  - apply NoDup_filter, default_models_NoDup.
Qed.
End StartUpProperties.

Lemma initialize_models_names_unique_witness :
  NoDup (model_names single_model_world)
  /\ NoDup (model_names (initialize_models single_model_world).2).
Proof.
  assert (Hnd : NoDup (model_names single_model_world)) by by_evaluation.
  exact (conj Hnd (initialize_models_names_unique single_model_world Hnd)).
Defined.

(** ** Chat requests, further *)

Section ChatProperties.
Context {E : re.engine}.
Implicit Types (rule : RoutingRule.t) (rules before after more : list RoutingRule.t).
Implicit Types (provider model prompt : string) (w : World).

(** Where the loop raises, it raises on a rule it reached. *)
Lemma loop_raised rules prompt model e :
  chat_completions_loop rules prompt model = Raised e ->
  exists before rule after,
    rules = before ++ rule :: after
    /\ Forall (no_match prompt) before
    /\ test prompt rule = Raised e.
Proof.
  induction rules as [|rule rules IH]; simpl; [discriminate|].
  destruct (re.search _ _ _) as [[|]|e'] eqn:Hs; [discriminate| |].
  - intros H. destruct (IH H) as (before & r & after & -> & Hb & Hr).
    exists (rule :: before), r, after. repeat split; [|exact Hr].
    constructor; [exact Hs | exact Hb].
  - intros [= ->]. exists [], rule, rules. repeat split; [constructor | exact Hs].
Qed.

(** Rules appended after a rule that matches or raises are not reached. *)
Lemma loop_decided rules more prompt model :
  (exists rule, rule ∈ rules /\ test prompt rule <> Returned false) ->
  chat_completions_loop (rules ++ more) prompt model
  = chat_completions_loop rules prompt model.
Proof.
  induction rules as [|rule rules IH]; intros (r & Hin & Hr).
  - inversion Hin.
  - simpl. destruct (re.search _ _ _) as [[|]|e'] eqn:Hs; try reflexivity.
    apply IH. apply elem_of_cons in Hin as [->|Hin].
    + exfalso. apply Hr. exact Hs.
    + exists r. split; assumption.
Qed.

(** An answer has no "error". *)
Lemma answer_has_no_error (provider model text : string) :
  ({[ "provider" := provider; "model" := model; "response" := text ]}
   : gmap string string) !! "error" = None.
Proof. reflexivity. Qed.

(** X4: a chat request that raises has a stored model and raises the
    exception of [re.search] on a rule it reached, no rule before it having
    matched; the world is left as it was.  A request raises in no other
    way. *)
Theorem chat_raises_only_from_search provider model prompt w w' e :
  chat_completions provider model prompt w = (Raised e, w') ->
  model ∈ model_names w
  /\ w' = w
  /\ exists before rule after,
       routing_rules (db w) = before ++ rule :: after
       /\ Forall (no_match prompt) before
       /\ test prompt rule = Raised e.
Proof.
  intros Hc. destruct (decide (model ∈ model_names w)) as [Hm|Hm].
  - rewrite chat_completions_known in Hc by assumption.
    destruct (chat_completions_loop _ _ _) as [m|e'] eqn:Hl; [discriminate|].
    injection Hc as -> ->. repeat split; [exact Hm|].
    apply loop_raised with (model := model), Hl.
  - rewrite chat_completions_unknown in Hc by assumption. discriminate.
Qed.

(** X5: the model of an answer is the requested model or the
    [redirect_model] of a stored rule whose pattern matched the prompt: no
    other model is ever answered. *)
Theorem chat_model_origin provider model prompt w w' payload effective :
  chat_completions provider model prompt w = (Returned payload, w') ->
  payload !! "model" = Some effective ->
  effective = model
  \/ exists rule,
       rule ∈ routing_rules (db w)
       /\ test prompt rule = Returned true
       /\ effective = RoutingRule.redirect_model rule.
Proof.
  intros Hc Hmodel. destruct (decide (model ∈ model_names w)) as [Hm|Hm].
  - rewrite chat_completions_known in Hc by assumption.
    destruct (chat_completions_loop _ _ _) as [m|e'] eqn:Hl; [|discriminate].
    injection Hc as <- _. injection Hmodel as <-.
    apply loop_returns, Hl.
  - rewrite chat_completions_unknown in Hc by assumption.
    injection Hc as <- _. discriminate Hmodel.
Qed.

(** X6: the error payload is the answer exactly when the requested model is
    not stored. *)
Theorem chat_error_iff_unknown provider model prompt w :
  (chat_completions provider model prompt w).1
  = Returned {[ "error" := "Model not supported" ]}
  <-> model ∉ model_names w.
Proof.
  split.
  - intros Hc Hm. rewrite chat_completions_known in Hc by assumption.
    cbn [fst] in Hc.
    destruct (chat_completions_loop _ _ _) as [m|e']; [|discriminate].
    apply (f_equal (fun o : outcome (gmap string string) =>
                      match o with
                      | Returned payload => payload !! "error"
                      | Raised _ => None
                      end)) in Hc.
    cbv beta iota in Hc. rewrite answer_has_no_error in Hc. discriminate Hc.
  - intros Hm. rewrite chat_completions_unknown by assumption. reflexivity.
Qed.

(** X7: a rule added through [add_regex_rule] is in force at once: where no
    stored rule matches the prompt and the pattern of the new rule does, a
    request for a stored model is answered with the [redirect_model] of the
    new rule. *)
Theorem add_regex_rule_then_chat
    original_model regex_pattern redirect_model provider model prompt w :
  model ∈ model_names w ->
  Forall (no_match prompt) (routing_rules (db w)) ->
  re.search regex_pattern prompt re.IGNORECASE = Returned true ->
  chat_completions provider model prompt
    (add_regex_rule original_model regex_pattern redirect_model w).2
  = (Returned {[ "provider" := provider;
                 "model" := redirect_model;
                 "response" := default "Response not available."
                                       (responses !! redirect_model) ]},
     (add_regex_rule original_model regex_pattern redirect_model w).2).
Proof.
  intros Hm Hn Hs.
  rewrite chat_completions_known by exact Hm.
  cbn [add_regex_rule snd].
  change (routing_rules (db (add_regex_rule original_model regex_pattern
                                            redirect_model w).2))
    with (routing_rules (db w)
          ++ [{| RoutingRule.id := next_id (RoutingRule.id <$> routing_rules (db w));
                 RoutingRule.original_model := original_model;
                 RoutingRule.regex_pattern := regex_pattern;
                 RoutingRule.redirect_model := redirect_model |}]).
  rewrite loop_first_match by assumption. reflexivity.
Qed.

(** X8: the stored rules have priority over a rule added later: in a table
    with regular keys, where the new rule comes last, a request that a
    stored rule decides, by matching or by raising, has the same outcome
    after [add_regex_rule] as before. *)
Theorem add_regex_rule_keeps_decided
    original_model regex_pattern redirect_model provider model prompt w :
  rowids_regular (routing_rule_ids w) ->
  (exists rule, rule ∈ routing_rules (db w) /\ test prompt rule <> Returned false) ->
  (chat_completions provider model prompt
     (add_regex_rule original_model regex_pattern redirect_model w).2).1
  = (chat_completions provider model prompt w).1.
Proof.
  intros _ Hdec. destruct (decide (model ∈ model_names w)) as [Hm|Hm].
  - rewrite !chat_completions_known by exact Hm.
    change (routing_rules (db (add_regex_rule original_model regex_pattern
                                              redirect_model w).2))
      with (routing_rules (db w)
            ++ [{| RoutingRule.id := next_id (RoutingRule.id <$> routing_rules (db w));
                   RoutingRule.original_model := original_model;
                   RoutingRule.regex_pattern := regex_pattern;
                   RoutingRule.redirect_model := redirect_model |}]).
    rewrite loop_decided by exact Hdec. reflexivity.
  - rewrite !chat_completions_unknown by exact Hm. reflexivity.
Qed.
End ChatProperties.

(** ** The extension of a file name, further *)

(** No piece of a split contains the separator. *)
Lemma split_pieces (s : string) (sep : ascii) :
  Forall (fun piece => contains sep piece = false) (split s sep).
Proof.
  induction s as [|c s IH]; simpl.
  - repeat constructor.
  - destruct (Ascii.eqb c sep) eqn:Hc.
    + constructor; [reflexivity | exact IH].
    + destruct (split s sep) as [|piece pieces].
      * repeat constructor. simpl. rewrite Hc. reflexivity.
      * inversion IH as [|? ? Hpiece Hpieces]; subst.
        constructor; [|exact Hpieces]. simpl. rewrite Hc. exact Hpiece.
Qed.

(** The extension has no "." and none of the letters A to Z. *)
Lemma file_ext_of_shape {S : str.unicode} (filename ext : string) :
  file_ext_of filename = Returned ext ->
  contains "." ext = false /\ no_ascii_capital ext.
Proof.
  intros Hext.
  destruct (file_ext_of_returns filename) as (piece & Hlast & Hret).
  rewrite Hret in Hext. injection Hext as <-. split.
  - rewrite str.lower_dot.
    apply last_Some_elem_of in Hlast.
    pose proof (split_pieces filename ".") as Hall.
    rewrite Forall_forall in Hall. apply Hall. exact Hlast.
  - apply str.lower_no_ascii_capital.
Qed.

(** ** Routes side by side *)

Section Frames.
Context {E : re.engine} {S : str.unicode} {D : os.files}.
Implicit Types (provider model prompt : string) (file : UploadFile.t) (w : World).

Lemma add_file_routing_rule_frame file_type redirect_provider redirect_model w :
  let w' := (add_file_routing_rule file_type redirect_provider redirect_model w).2 in
  models (db w') = models (db w)
  /\ routing_rules (db w') = routing_rules (db w)
  /\ uploads w' = uploads w.
Proof.
  destruct (decide (file_type ∈ file_types w)) as [H|H].
  - rewrite add_file_routing_rule_taken by assumption. repeat split.
  - rewrite add_file_routing_rule_free by assumption. repeat split.
Qed.

(** The answer to a chat request is read off the models and the prompt
    rules. *)
Lemma chat_completions_reads provider model prompt w1 w2 :
  models (db w1) = models (db w2) ->
  routing_rules (db w1) = routing_rules (db w2) ->
  (chat_completions provider model prompt w1).1
  = (chat_completions provider model prompt w2).1.
Proof.
  intros Hmodels Hrules.
  assert (Hnames : model_names w1 = model_names w2)
    by (unfold model_names; rewrite Hmodels; reflexivity).
  destruct (decide (model ∈ model_names w1)) as [Hm|Hm].
  - rewrite (chat_completions_known _ _ _ w1) by exact Hm.
    rewrite (chat_completions_known _ _ _ w2) by (rewrite <- Hnames; exact Hm).
    rewrite Hrules. reflexivity.
  - rewrite (chat_completions_unknown _ _ _ w1) by exact Hm.
    rewrite (chat_completions_unknown _ _ _ w2) by (rewrite <- Hnames; exact Hm).
    reflexivity.
Qed.

(** The world an upload leaves is the world the copy of the file leaves. *)
Lemma upload_file_world file w :
  (upload_file file w).2
  = (save_upload (UploadFile.filename file) (UploadFile.file file) w).2.
Proof.
  destruct (file_ext_of_returns (UploadFile.filename file)) as (piece & _ & Hext).
  rewrite (upload_file_run _ _ _ Hext).
  destruct (save_upload _ _ w) as [[[]|e] w1]; reflexivity.
Qed.

(** Two worlds with the same files, whose tables give the same rule for the
    extension of a file, answer the upload of the file alike. *)
Lemma upload_file_agree file w1 w2 ext :
  file_ext_of (UploadFile.filename file) = Returned ext ->
  uploads w1 = uploads w2 ->
  List.find (fun r => String.eqb (FileRoutingRule.file_type r) ext)
            (file_routing_rules (db w1))
  = List.find (fun r => String.eqb (FileRoutingRule.file_type r) ext)
              (file_routing_rules (db w2)) ->
  (upload_file file w1).1 = (upload_file file w2).1.
Proof.
  intros Hext Hfiles Hfind. rewrite !(upload_file_run _ _ _ Hext).
  unfold save_upload.
  destruct (os.write_tables (UploadFile.filename file) (UploadFile.file file)
                            w1 w2 Hfiles) as (Hout & Hdb).
  destruct (os.write _ _ w1) as [o1 w1'], (os.write _ _ w2) as [o2 w2'].
  cbn [fst snd] in Hout, Hdb. subst o2.
  destruct o1 as [[]|e]; [|reflexivity]. cbn [fst]. f_equal.
  destruct Hdb as [[-> ->] | ->]; [rewrite Hfind|]; reflexivity.
Qed.

(** X9: every route changes its own part of the world and nothing else: a
    chat request changes nothing, [add_regex_rule] changes the prompt rules
    only and [add_file_routing_rule] the file rules only, and an upload
    changes the world only by what the copy of the file to the disk does;
    the routes that add a rule never add, remove or rename a model. *)
Theorem routes_change_their_own_table
    provider model prompt file
    original_model regex_pattern redirect_model
    file_type redirect_provider file_redirect_model w :
  (chat_completions provider model prompt w).2 = w
  /\ (upload_file file w).2
     = (save_upload (UploadFile.filename file) (UploadFile.file file) w).2
  /\ (let w' := (add_regex_rule original_model regex_pattern redirect_model w).2 in
      models (db w') = models (db w)
      /\ file_routing_rules (db w') = file_routing_rules (db w)
      /\ uploads w' = uploads w)
  /\ (let w' := (add_file_routing_rule
                   file_type redirect_provider file_redirect_model w).2 in
      models (db w') = models (db w)
      /\ routing_rules (db w') = routing_rules (db w)
      /\ uploads w' = uploads w).
Proof.
  split; [apply chat_completions_reads_only|].
  split; [apply upload_file_world|].
  split; [repeat split | apply add_file_routing_rule_frame].
Qed.

(** X10: the two families of rules do not interfere: the answer to a chat
    request is the same after a file rule is added as before, and the answer
    to an upload is the same after a prompt rule is added, or a chat request
    served, as before. *)
Theorem routes_do_not_interfere
    provider model prompt file
    original_model regex_pattern redirect_model
    file_type redirect_provider file_redirect_model w :
  (chat_completions provider model prompt
     (add_file_routing_rule file_type redirect_provider file_redirect_model w).2).1
  = (chat_completions provider model prompt w).1
  /\ (upload_file file
        (add_regex_rule original_model regex_pattern redirect_model w).2).1
     = (upload_file file w).1
  /\ (upload_file file (chat_completions provider model prompt w).2).1
     = (upload_file file w).1.
Proof.
  destruct (add_file_routing_rule_frame
              file_type redirect_provider file_redirect_model w) as (Hm & Hr & _).
  split; [apply chat_completions_reads; assumption|]. split.
  - destruct (file_ext_of_returns (UploadFile.filename file)) as (piece & _ & Hext).
    apply (upload_file_agree _ _ _ _ Hext); reflexivity.
  - rewrite chat_completions_reads_only. reflexivity.
Qed.
End Frames.

(** ** Primary keys *)

Lemma foldr_max_ge (ids : list Z) (x : Z) : x ∈ ids -> x <= foldr Z.max 0 ids.
Proof.
  induction ids as [|y ids IH]; intros Hin; [inversion Hin|].
  simpl. apply elem_of_cons in Hin as [->|Hin]; [lia|].
  specialize (IH Hin). lia.
Qed.

Lemma foldr_max_bounds (ids : list Z) (bound : Z) :
  0 < bound ->
  Forall (fun x => 0 < x < bound) ids ->
  0 <= foldr Z.max 0 ids < bound.
Proof.
  intros Hb. induction 1 as [|x ids Hx _ IH]; simpl; lia.
Qed.

(** The key of a new row is larger than every key of the table. *)
Lemma next_id_above (ids : list Z) : Forall (fun x => x < next_id ids) ids.
Proof.
  apply Forall_forall. intros x Hin. unfold next_id.
  pose proof (foldr_max_ge ids x Hin). lia.
Qed.

Lemma StronglySorted_snoc (ids : list Z) (n : Z) :
  StronglySorted Z.lt ids ->
  Forall (fun x => x < n) ids ->
  StronglySorted Z.lt (ids ++ [n]).
Proof.
  induction 1 as [|x ids Hs IH Hx]; intros Hall; simpl.
  - repeat constructor.
  - inversion Hall as [|? ? Hxn Hrest]; subst. constructor.
    + apply IH, Hrest.
    + apply Forall_app. split; [exact Hx | repeat constructor; exact Hxn].
Qed.

Lemma StronglySorted_lt_NoDup (ids : list Z) : StronglySorted Z.lt ids -> NoDup ids.
Proof.
  induction 1 as [|x ids Hs IH Hx]; constructor; [|exact IH].
  intros Hin. rewrite Forall_forall in Hx. specialize (Hx x Hin). lia.
Qed.

(** Regular keys followed by the next key: in order, distinct, positive and
    not above the largest rowid. *)
Lemma rowids_regular_next (ids : list Z) :
  rowids_regular ids ->
  StronglySorted Z.lt (ids ++ [next_id ids])
  /\ NoDup (ids ++ [next_id ids])
  /\ Forall (fun x => 0 < x <= max_rowid) (ids ++ [next_id ids]).
Proof.
  intros [Hs Hb].
  assert (Hsorted : StronglySorted Z.lt (ids ++ [next_id ids]))
    by (apply StronglySorted_snoc; [exact Hs | apply next_id_above]).
  split; [exact Hsorted|]. split; [apply StronglySorted_lt_NoDup, Hsorted|].
  apply Forall_app. split.
  - eapply Forall_impl; [exact Hb|]. cbn. intros x Hx. lia.
  - repeat constructor; unfold next_id;
      pose proof (foldr_max_bounds ids max_rowid eq_refl Hb); lia.
Qed.

(** X11: the routes that add a rule keep the primary keys in order: in a
    table with regular keys the key of the new rule is one more than the
    last, so that after [add_regex_rule] and after [add_file_routing_rule]
    the keys of the table still increase strictly along it, no two rows
    share a key, and every key is positive and at most the largest rowid. *)
Theorem inserts_keep_primary_keys
    original_model regex_pattern redirect_model
    file_type redirect_provider file_redirect_model w :
  rowids_regular (routing_rule_ids w) ->
  rowids_regular (file_routing_rule_ids w) ->
  (let w' := (add_regex_rule original_model regex_pattern redirect_model w).2 in
   StronglySorted Z.lt (routing_rule_ids w')
   /\ NoDup (routing_rule_ids w')
   /\ Forall (fun x => 0 < x <= max_rowid) (routing_rule_ids w'))
  /\ (let w' := (add_file_routing_rule
                   file_type redirect_provider file_redirect_model w).2 in
      StronglySorted Z.lt (file_routing_rule_ids w')
      /\ NoDup (file_routing_rule_ids w')
      /\ Forall (fun x => 0 < x <= max_rowid) (file_routing_rule_ids w')).
Proof.
  intros Hr Hf. split.
  - cbv zeta. unfold routing_rule_ids.
    change (routing_rules (db (add_regex_rule original_model regex_pattern
                                              redirect_model w).2))
      with (routing_rules (db w)
            ++ [{| RoutingRule.id := next_id (RoutingRule.id <$> routing_rules (db w));
                   RoutingRule.original_model := original_model;
                   RoutingRule.regex_pattern := regex_pattern;
                   RoutingRule.redirect_model := redirect_model |}]).
    rewrite fmap_app. apply rowids_regular_next, Hr.
  - cbv zeta. destruct (decide (file_type ∈ file_types w)) as [H|H].
    + rewrite add_file_routing_rule_taken by assumption. cbn [snd].
      destruct Hf as [Hs Hb]. split; [exact Hs|].
      split; [apply StronglySorted_lt_NoDup, Hs|].
      eapply Forall_impl; [exact Hb|]. cbn. intros x Hx. lia.
    + rewrite add_file_routing_rule_free by assumption.
      unfold file_routing_rule_ids.
      cbn [snd with_file_routing_rules db file_routing_rules].
      rewrite fmap_app. apply rowids_regular_next, Hf.
Qed.

(** ** Uploads, further *)

Section UploadProperties.
Context {S : str.unicode} {D : os.files}.
Implicit Types (rule : FileRoutingRule.t) (rules before after : list FileRoutingRule.t).
Implicit Types (ext : string) (file : UploadFile.t) (w : World).

Lemma find_without ext before rule after :
  not_rule_for ext rule ->
  List.find (fun r => String.eqb (FileRoutingRule.file_type r) ext)
            (before ++ rule :: after)
  = List.find (fun r => String.eqb (FileRoutingRule.file_type r) ext)
              (before ++ after).
Proof.
  intros Hr. induction before as [|r before IH]; simpl.
  - apply String.eqb_neq in Hr. rewrite Hr. reflexivity.
  - rewrite IH. reflexivity.
Qed.

(** X12: an upload that is answered was copied to the disk first, and its
    answer is never an error: whenever [upload_file] returns, the copy of
    the file has returned and left the world the upload leaves, the answer
    names the file, carries a response and no error, and has a provider
    exactly when it has a model. *)
Theorem upload_file_answer file w w' payload :
  upload_file file w = (Returned payload, w') ->
  save_upload (UploadFile.filename file) (UploadFile.file file) w
  = (Returned tt, w')
  /\ payload !! "filename" = Some (UploadFile.filename file)
  /\ is_Some (payload !! "response")
  /\ payload !! "error" = None
  /\ (is_Some (payload !! "provider") <-> is_Some (payload !! "model")).
Proof.
  destruct (file_ext_of_returns (UploadFile.filename file)) as (piece & _ & Hext).
  rewrite (upload_file_run _ _ _ Hext).
  destruct (save_upload _ _ w) as [[[]|e] w1]; [|discriminate].
  destruct (List.find _ _) as [rule|]; intros [= <- <-].
  - split; [reflexivity|]. split; [reflexivity|].
    split; [eexists; reflexivity|]. split; [reflexivity|].
    split; intros _; eexists; reflexivity.
  - split; [reflexivity|]. split; [reflexivity|].
    split; [eexists; reflexivity|]. split; [reflexivity|].
    split; intros [x Hx]; discriminate Hx.
Qed.


(** X14: a rule whose [file_type] has a "." or a capital letter is never
    used: no upload is answered differently with the rule in the table than
    without it. *)
Theorem upload_ignores_unnormalised_rule file w before rule after :
  contains "." (FileRoutingRule.file_type rule) = true
  \/ lower (FileRoutingRule.file_type rule) <> FileRoutingRule.file_type rule ->
  (upload_file file (with_file_routing_rules (before ++ rule :: after) w)).1
  = (upload_file file (with_file_routing_rules (before ++ after) w)).1.
Proof.
  intros Hrule.
  destruct (file_ext_of_returns (UploadFile.filename file)) as (piece & _ & Hext).
  destruct (file_ext_of_shape _ _ Hext) as (Hdot & Hlow).
  apply (upload_file_agree _ _ _ _ Hext); [reflexivity|].
  cbn [with_file_routing_rules db file_routing_rules].
  apply find_without.
  intros Heq. unfold rule_for in Heq. destruct Hrule as [Hd|Hl].
  - rewrite Heq in Hd. congruence.
  - apply Hl. rewrite Heq. exact Hlow.
Qed.

(** X15: a file rule added through [add_file_routing_rule] is in force at
    once: where no rule of the file type was stored, an upload with that
    extension, once copied to the disk without a change to the tables, is
    answered with the provider and the model just given. *)
Theorem add_file_routing_rule_then_upload
    file_type redirect_provider redirect_model file w w' :
  file_type ∉ file_types w ->
  file_ext_of (UploadFile.filename file) = Returned file_type ->
  save_upload (UploadFile.filename file) (UploadFile.file file)
    (add_file_routing_rule file_type redirect_provider redirect_model w).2
  = (Returned tt, w') ->
  db w' = db (add_file_routing_rule file_type redirect_provider redirect_model w).2 ->
  upload_file file
    (add_file_routing_rule file_type redirect_provider redirect_model w).2
  = (Returned {[ "filename" := UploadFile.filename file;
                 "provider" := redirect_provider;
                 "model" := redirect_model;
                 "response" :=
                   redirect_provider +:+ ": File processed with AI model "
                   +:+ redirect_model +:+ "." ]},
     w').
Proof.
  intros Hfree Hext Hcopy Hdb.
  rewrite (upload_file_run _ _ _ Hext), Hcopy, Hdb.
  rewrite add_file_routing_rule_free by exact Hfree.
  cbn [snd with_file_routing_rules db file_routing_rules].
  rewrite find_first; [reflexivity | | reflexivity].
  apply Forall_forall. intros r Hr Heq. apply Hfree.
  unfold file_types. apply list_elem_of_fmap. exists r.
  split; [symmetry; exact Heq | exact Hr].
Qed.

(** X16: adding a rule for one file type leaves the uploads of every other
    extension answered as before, whether the insert is accepted or
    refused. *)
Theorem add_file_routing_rule_keeps_others
    file_type redirect_provider redirect_model file ext w :
  file_ext_of (UploadFile.filename file) = Returned ext ->
  ext <> file_type ->
  (upload_file file
     (add_file_routing_rule file_type redirect_provider redirect_model w).2).1
  = (upload_file file w).1.
Proof.
  intros Hext Hne.
  destruct (decide (file_type ∈ file_types w)) as [H|H].
  - rewrite add_file_routing_rule_taken by assumption. reflexivity.
  - rewrite add_file_routing_rule_free by assumption.
    apply (upload_file_agree _ _ _ _ Hext); [reflexivity|].
    cbn [snd with_file_routing_rules db file_routing_rules].
    rewrite find_without, app_nil_r; [reflexivity|].
    intros Heq. apply Hne. symmetry. exact Heq.
Qed.
End UploadProperties.

(** ** The listings *)

(** X17: in a table with regular keys, [get_regex_rules] after
    [add_regex_rule] lists the rules listed before, unchanged and in the
    same order, followed by one new rule that carries the three strings
    given and a key larger than every other. *)
Theorem add_regex_rule_then_list original_model regex_pattern redirect_model w :
  rowids_regular (routing_rule_ids w) ->
  exists rule,
    (get_regex_rules (add_regex_rule original_model regex_pattern redirect_model w).2).1
    = Returned (routing_rules (db w) ++ [rule])
    /\ RoutingRule.original_model rule = original_model
    /\ RoutingRule.regex_pattern rule = regex_pattern
    /\ RoutingRule.redirect_model rule = redirect_model
    /\ Forall (fun r => RoutingRule.id r < RoutingRule.id rule) (routing_rules (db w))
    /\ 0 < RoutingRule.id rule <= max_rowid.
Proof.
  intros [_ Hb]. unfold routing_rule_ids in Hb.
  eexists. split; [reflexivity|]. repeat split.
  - cbn [RoutingRule.id].
    pose proof (next_id_above (RoutingRule.id <$> routing_rules (db w))) as H.
    rewrite Forall_fmap in H. exact H.
  - cbn [RoutingRule.id]. unfold next_id.
    pose proof (foldr_max_bounds _ max_rowid eq_refl Hb). lia.
  - cbn [RoutingRule.id]. unfold next_id.
    pose proof (foldr_max_bounds _ max_rowid eq_refl Hb). lia.
Qed.

(** X18: in a table with regular keys, [get_file_routing_rules] after
    [add_file_routing_rule] lists the rules listed before, unchanged and in
    the same order, followed by the new rule when its file type was not
    stored, and by nothing when it was: a stored rule is never replaced. *)
Theorem add_file_routing_rule_then_list
    file_type redirect_provider redirect_model w :
  rowids_regular (file_routing_rule_ids w) ->
  (get_file_routing_rules
     (add_file_routing_rule file_type redirect_provider redirect_model w).2).1
  = Returned
      (file_routing_rules (db w)
       ++ (if decide (file_type ∈ file_types w) then []
           else [{| FileRoutingRule.id :=
                      next_id (FileRoutingRule.id <$> file_routing_rules (db w));
                    FileRoutingRule.file_type := file_type;
                    FileRoutingRule.redirect_provider := redirect_provider;
                    FileRoutingRule.redirect_model := redirect_model |}])).
Proof.
  intros _. destruct (decide (file_type ∈ file_types w)) as [H|H].
  - rewrite add_file_routing_rule_taken by assumption.
    rewrite app_nil_r. reflexivity.
  - rewrite add_file_routing_rule_free by assumption. reflexivity.
Qed.

(** * The further properties at work *)

(** Closes [rowids_regular] for the keys of a given table. *)
Ltac regular_rowids :=
  match goal with
  | |- rowids_regular ?ids =>
      let keys := eval vm_compute in ids in
      change (rowids_regular keys); split;
      [ repeat first [ apply SSorted_nil | apply SSorted_cons
                     | apply List.Forall_nil | apply List.Forall_cons | lia ]
      | repeat first [ apply List.Forall_nil | apply List.Forall_cons
                     | unfold max_rowid; lia ] ]
  end.

Lemma chat_raises_only_from_search_witness :
  chat_completions (E := plain_engine)
    "openai" "openai/gpt-3.5" "please help" broken_world
  = (Raised re_error, broken_world)
  /\ ("openai/gpt-3.5" ∈ model_names broken_world
      /\ broken_world = broken_world
      /\ exists before rule after,
           routing_rules (db broken_world) = before ++ rule :: after
           /\ Forall (no_match (E := plain_engine) "please help") before
           /\ test (E := plain_engine) "please help" rule = Raised re_error).
Proof.
  assert (Hc : chat_completions (E := plain_engine)
                 "openai" "openai/gpt-3.5" "please help" broken_world
               = (Raised re_error, broken_world)) by reflexivity.
  exact (conj Hc (chat_raises_only_from_search (E := plain_engine)
                    "openai" "openai/gpt-3.5" "please help"
                    broken_world broken_world re_error Hc)).
Defined.

Lemma chat_model_origin_witness :
  let payload : gmap string string :=
    {[ "provider" := "openai";
       "model" := "anthropic/claude-v1";
       "response" :=
         "Anthropic: Your prompt has been interpreted with ethical AI principles." ]} in
  chat_completions (E := plain_engine)
    "openai" "openai/gpt-3.5" "URGENT: help" routed_world
  = (Returned payload, routed_world)
  /\ payload !! "model" = Some "anthropic/claude-v1"
  /\ ("anthropic/claude-v1" = "openai/gpt-3.5"
      \/ exists rule,
           rule ∈ routing_rules (db routed_world)
           /\ test (E := plain_engine) "URGENT: help" rule = Returned true
           /\ "anthropic/claude-v1" = RoutingRule.redirect_model rule).
Proof.
  intros payload.
  assert (Hc : chat_completions (E := plain_engine)
                 "openai" "openai/gpt-3.5" "URGENT: help" routed_world
               = (Returned payload, routed_world)) by reflexivity.
  assert (Hm : payload !! "model" = Some "anthropic/claude-v1") by reflexivity.
  exact (conj Hc (conj Hm
           (chat_model_origin (E := plain_engine)
              "openai" "openai/gpt-3.5" "URGENT: help" routed_world routed_world
              payload "anthropic/claude-v1" Hc Hm))).
Defined.

Lemma add_regex_rule_then_chat_witness :
  let w' := (add_regex_rule "openai/gpt-3.5" "refund" "gemini/gemini-alpha"
                            initial_world).2 in
  "openai/gpt-3.5" ∈ model_names initial_world
  /\ Forall (no_match (E := plain_engine) "Refund, please")
            (routing_rules (db initial_world))
  /\ re.search (engine := plain_engine) "refund" "Refund, please" re.IGNORECASE
     = Returned true
  /\ chat_completions (E := plain_engine)
       "openai" "openai/gpt-3.5" "Refund, please" w'
     = (Returned {[ "provider" := "openai";
                    "model" := "gemini/gemini-alpha";
                    "response" := default "Response not available."
                                          (responses !! "gemini/gemini-alpha") ]},
        w').
Proof.
  intros w'.
  assert (Hm : "openai/gpt-3.5" ∈ model_names initial_world) by by_evaluation.
  assert (Hn : Forall (no_match (E := plain_engine) "Refund, please")
                      (routing_rules (db initial_world)))
    by (repeat constructor).
  assert (Hs : re.search (engine := plain_engine)
                 "refund" "Refund, please" re.IGNORECASE = Returned true)
    by reflexivity.
  exact (conj Hm (conj Hn (conj Hs
           (add_regex_rule_then_chat (E := plain_engine)
              "openai/gpt-3.5" "refund" "gemini/gemini-alpha"
              "openai" "openai/gpt-3.5" "Refund, please" initial_world
              Hm Hn Hs)))).
Defined.

Lemma add_regex_rule_keeps_decided_witness :
  rowids_regular (routing_rule_ids routed_world)
  /\ (exists rule, rule ∈ routing_rules (db routed_world)
                   /\ test (E := plain_engine) "URGENT: help" rule <> Returned false)
  /\ (chat_completions (E := plain_engine)
        "openai" "openai/gpt-3.5" "URGENT: help"
        (add_regex_rule "openai/gpt-3.5" "urgent" "gemini/gemini-alpha"
                        routed_world).2).1
     = (chat_completions (E := plain_engine)
          "openai" "openai/gpt-3.5" "URGENT: help" routed_world).1.
Proof.
  assert (Hk : rowids_regular (routing_rule_ids routed_world))
    by regular_rowids.
  assert (Hd : exists rule, rule ∈ routing_rules (db routed_world)
                            /\ test (E := plain_engine) "URGENT: help" rule
                               <> Returned false).
  { exists urgent_rule. split; [right; left | discriminate]. }
  exact (conj Hk (conj Hd
           (add_regex_rule_keeps_decided (E := plain_engine)
              "openai/gpt-3.5" "urgent" "gemini/gemini-alpha"
              "openai" "openai/gpt-3.5" "URGENT: help" routed_world Hk Hd))).
Defined.

Lemma inserts_keep_primary_keys_witness :
  rowids_regular (routing_rule_ids routed_world)
  /\ rowids_regular (file_routing_rule_ids routed_world)
  /\ (let w' := (add_regex_rule "openai/gpt-3.5" "refund" "gemini/gemini-alpha"
                                routed_world).2 in
      StronglySorted Z.lt (routing_rule_ids w')
      /\ NoDup (routing_rule_ids w')
      /\ Forall (fun x => 0 < x <= max_rowid) (routing_rule_ids w'))
  /\ (let w' := (add_file_routing_rule "pdf" "openai" "openai/gpt-3.5"
                                       routed_world).2 in
      StronglySorted Z.lt (file_routing_rule_ids w')
      /\ NoDup (file_routing_rule_ids w')
      /\ Forall (fun x => 0 < x <= max_rowid) (file_routing_rule_ids w')).
Proof.
  assert (Hr : rowids_regular (routing_rule_ids routed_world))
    by regular_rowids.
  assert (Hf : rowids_regular (file_routing_rule_ids routed_world))
    by regular_rowids.
  exact (conj Hr (conj Hf
           (inserts_keep_primary_keys
              "openai/gpt-3.5" "refund" "gemini/gemini-alpha"
              "pdf" "openai" "openai/gpt-3.5" routed_world Hr Hf))).
Defined.

Lemma upload_file_answer_witness :
  let file := {| UploadFile.filename := "Report.PDF"; UploadFile.file := "%PDF-1.7" |} in
  let payload : gmap string string :=
    {[ "filename" := "Report.PDF";
       "provider" := "openai";
       "model" := "openai/gpt-3.5";
       "response" := "openai: File processed with AI model openai/gpt-3.5." ]} in
  upload_file (S := plain_str) (D := plain_files) file files_world
  = (Returned payload, with_upload file files_world)
  /\ save_upload (D := plain_files)
       (UploadFile.filename file) (UploadFile.file file) files_world
     = (Returned tt, with_upload file files_world)
  /\ payload !! "filename" = Some (UploadFile.filename file)
  /\ is_Some (payload !! "response")
  /\ payload !! "error" = None
  /\ (is_Some (payload !! "provider") <-> is_Some (payload !! "model")).
Proof.
  intros file payload.
  assert (Hup : upload_file (S := plain_str) (D := plain_files) file files_world
                = (Returned payload, with_upload file files_world))
    by reflexivity.
  exact (conj Hup
           (upload_file_answer (S := plain_str) (D := plain_files)
              file files_world (with_upload file files_world) payload Hup)).
Defined.


Lemma upload_ignores_unnormalised_rule_witness :
  let file := {| UploadFile.filename := "Report.PDF"; UploadFile.file := "%PDF-1.7" |} in
  let rule := {| FileRoutingRule.id := 2;
                 FileRoutingRule.file_type := "PDF";
                 FileRoutingRule.redirect_provider := "openai";
                 FileRoutingRule.redirect_model := "openai/gpt-3.5" |} in
  (contains "." (FileRoutingRule.file_type rule) = true
   \/ lower (FileRoutingRule.file_type rule) <> FileRoutingRule.file_type rule)
  /\ (upload_file (S := plain_str) (D := plain_files) file
        (with_file_routing_rules ([png_rule] ++ rule :: []) initial_world)).1
     = (upload_file (S := plain_str) (D := plain_files) file
          (with_file_routing_rules ([png_rule] ++ []) initial_world)).1.
Proof.
  intros file rule.
  assert (Hr : contains "." (FileRoutingRule.file_type rule) = true
               \/ lower (FileRoutingRule.file_type rule)
                  <> FileRoutingRule.file_type rule)
    by (right; discriminate).
  exact (conj Hr (upload_ignores_unnormalised_rule (S := plain_str) (D := plain_files)
                    file initial_world [png_rule] rule [] Hr)).
Defined.

Lemma add_file_routing_rule_then_upload_witness :
  let file := {| UploadFile.filename := "logo.SVG"; UploadFile.file := "<svg/>" |} in
  let w1 := (add_file_routing_rule "svg" "gemini" "gemini/gemini-alpha"
                                   files_world).2 in
  ("svg" ∉ file_types files_world)
  /\ file_ext_of (S := plain_str) (UploadFile.filename file) = Returned "svg"
  /\ save_upload (D := plain_files)
       (UploadFile.filename file) (UploadFile.file file) w1
     = (Returned tt, with_upload file w1)
  /\ db (with_upload file w1) = db w1
  /\ upload_file (S := plain_str) (D := plain_files) file w1
     = (Returned {[ "filename" := "logo.SVG";
                    "provider" := "gemini";
                    "model" := "gemini/gemini-alpha";
                    "response" :=
                      "gemini" +:+ ": File processed with AI model "
                      +:+ "gemini/gemini-alpha" +:+ "." ]},
        with_upload file w1).
Proof.
  intros file w1.
  assert (Hf : "svg" ∉ file_types files_world) by by_evaluation.
  assert (Hext : file_ext_of (S := plain_str) (UploadFile.filename file)
                 = Returned "svg") by reflexivity.
  assert (Hcopy : save_upload (D := plain_files)
                    (UploadFile.filename file) (UploadFile.file file) w1
                  = (Returned tt, with_upload file w1)) by reflexivity.
  assert (Hdb : db (with_upload file w1) = db w1) by reflexivity.
  exact (conj Hf (conj Hext (conj Hcopy (conj Hdb
           (add_file_routing_rule_then_upload (S := plain_str) (D := plain_files)
              "svg" "gemini" "gemini/gemini-alpha" file files_world
              (with_upload file w1) Hf Hext Hcopy Hdb))))).
Defined.

Lemma add_file_routing_rule_keeps_others_witness :
  let file := {| UploadFile.filename := "Report.PDF"; UploadFile.file := "%PDF-1.7" |} in
  file_ext_of (S := plain_str) (UploadFile.filename file) = Returned "pdf"
  /\ "pdf" <> "docx"
  /\ (upload_file (S := plain_str) (D := plain_files) file
        (add_file_routing_rule "docx" "anthropic" "anthropic/claude-v1"
                               files_world).2).1
     = (upload_file (S := plain_str) (D := plain_files) file files_world).1.
Proof.
  intros file.
  assert (Hext : file_ext_of (S := plain_str) (UploadFile.filename file)
                 = Returned "pdf") by reflexivity.
  assert (Hne : "pdf" <> "docx") by discriminate.
  exact (conj Hext (conj Hne
           (add_file_routing_rule_keeps_others (S := plain_str) (D := plain_files)
              "docx" "anthropic" "anthropic/claude-v1" file "pdf" files_world
              Hext Hne))).
Defined.

Lemma add_regex_rule_then_list_witness :
  rowids_regular (routing_rule_ids routed_world)
  /\ exists rule,
       (get_regex_rules
          (add_regex_rule "openai/gpt-3.5" "refund" "gemini/gemini-alpha"
                          routed_world).2).1
       = Returned (routing_rules (db routed_world) ++ [rule])
       /\ RoutingRule.original_model rule = "openai/gpt-3.5"
       /\ RoutingRule.regex_pattern rule = "refund"
       /\ RoutingRule.redirect_model rule = "gemini/gemini-alpha"
       /\ Forall (fun r => RoutingRule.id r < RoutingRule.id rule)
                 (routing_rules (db routed_world))
       /\ 0 < RoutingRule.id rule <= max_rowid.
Proof.
  assert (Hk : rowids_regular (routing_rule_ids routed_world))
    by regular_rowids.
  exact (conj Hk (add_regex_rule_then_list
                    "openai/gpt-3.5" "refund" "gemini/gemini-alpha"
                    routed_world Hk)).
Defined.

Lemma add_file_routing_rule_then_list_witness :
  rowids_regular (file_routing_rule_ids files_world)
  /\ (get_file_routing_rules
        (add_file_routing_rule "svg" "gemini" "gemini/gemini-alpha" files_world).2).1
     = Returned
         (file_routing_rules (db files_world)
          ++ (if decide ("svg" ∈ file_types files_world) then []
              else [{| FileRoutingRule.id :=
                         next_id (FileRoutingRule.id
                                    <$> file_routing_rules (db files_world));
                       FileRoutingRule.file_type := "svg";
                       FileRoutingRule.redirect_provider := "gemini";
                       FileRoutingRule.redirect_model := "gemini/gemini-alpha" |}])).
Proof.
  assert (Hk : rowids_regular (file_routing_rule_ids files_world))
    by regular_rowids.
  exact (conj Hk (add_file_routing_rule_then_list
                    "svg" "gemini" "gemini/gemini-alpha" files_world Hk)).
Defined.
